(** * Multimodal AI Policy Auditor: a shallow embedding of [app.py] and
    [create_db.py], and the properties of the audit pipeline.

    Python [str] values are lists of Unicode code points, so that [len] is
    [length] and the [in] operator is a search for a contiguous sub-list.
    Calls that leave the process (Ollama, FAISS, PyPDF2, the file system) are
    answered by a [World] of oracles; every such call and every Streamlit
    display call is recorded, in program order, in a trace of [event]s.
    A computation returns a value, raises a Python [Exception], or is halted
    by [st.stop()]. *)

From Stdlib Require Import List Bool Arith ZArith NArith Lia.
From Stdlib Require Import Ascii String.
From Stdlib Require Decimal.
From Stdlib Require Import Sorted Permutation.
Import ListNotations.

Set Implicit Arguments.

(** ** Python values *)

Module Py.

(** A [str]: its code points. *)
Definition str := list N.

(** An ASCII literal of the source. *)
Definition lit (s : string) : str := map N_of_ascii (list_ascii_of_string s).
Arguments lit s%_string.

Definition nl : str := [10%N].          (* "\n" *)
Definition dq : str := [34%N].          (* the double quote character *)

(** [len(s)] *)
Definition len (s : str) : nat := List.length s.

(** [bool(s)]: a string is falsy exactly when it is empty. *)
Definition truthy (s : str) : bool :=
  match s with [] => false | _ :: _ => true end.

Fixpoint startswith (s prefix : str) : bool :=
  match prefix, s with
  | [], _ => true
  | _ :: _, [] => false
  | p :: prefix', c :: s' => N.eqb p c && startswith s' prefix'
  end.

(** [needle in hay] on strings: some position of [hay] starts with [needle]. *)
Fixpoint contains (needle hay : str) : bool :=
  startswith hay needle ||
  match hay with
  | [] => false
  | _ :: hay' => contains needle hay'
  end.

(** [sep.join(parts)] *)
Fixpoint join (sep : str) (parts : list str) : str :=
  match parts with
  | [] => []
  | [p] => p
  | p :: rest => p ++ sep ++ join sep rest
  end.

Definition digit (d : N) : str := [(48 + d)%N].

Fixpoint of_uint (u : Decimal.uint) : str :=
  match u with
  | Decimal.Nil => []
  | Decimal.D0 u' => digit 0 ++ of_uint u'
  | Decimal.D1 u' => digit 1 ++ of_uint u'
  | Decimal.D2 u' => digit 2 ++ of_uint u'
  | Decimal.D3 u' => digit 3 ++ of_uint u'
  | Decimal.D4 u' => digit 4 ++ of_uint u'
  | Decimal.D5 u' => digit 5 ++ of_uint u'
  | Decimal.D6 u' => digit 6 ++ of_uint u'
  | Decimal.D7 u' => digit 7 ++ of_uint u'
  | Decimal.D8 u' => digit 8 ++ of_uint u'
  | Decimal.D9 u' => digit 9 ++ of_uint u'
  end.

(** [str(n)] for a non-negative [int], as an f-string renders [{n}]. *)
Definition of_nat (n : nat) : str := of_uint (Nat.to_uint n).

(** The values a PyPDF2 page extraction is considered to return. *)
Inductive value :=
| Str (s : str)
| None_.

(** An instance of a subclass of [Exception]: its class name and [str(e)].
    [KeyboardInterrupt] and [SystemExit] are not [Exception]s and are not
    outcomes of a service call; they are outside the model. *)
Record exn := Exn { exn_class : string; exn_str : str }.

(** What a call into a library or a service does. *)
Inductive outcome (A : Type) :=
| Returns (a : A)
| Raises (e : exn).
Arguments Raises {A} e.

Definition TypeError_concat_None : exn :=
  Exn "TypeError"
      (lit "can only concatenate str (not " ++ dq ++ lit "NoneType" ++ dq
           ++ lit ") to str").

End Py.

(** ** Effects: the trace of calls and the three ways a computation ends *)

(** Python [bytes]. *)
Definition bytes := list Init.Byte.byte.

(** One chat message of [ollama.chat(..., messages=[...])]. *)
Record message := Message {
  role : string;
  content : Py.str;
  images : list bytes
}.

(** [langchain] document: text plus the [source] metadata. *)
Record Document := mkDocument {
  page_content : Py.str;
  source : string
}.

(** A file handed over by [st.file_uploader]. *)
Record UploadedFile := mkUploadedFile {
  getvalue : bytes
}.

Inductive event :=
(* Streamlit display calls *)
| st_error (body : Py.str)
| st_success (body : Py.str)
| st_warning (body : Py.str)
| st_info (body : Py.str)
| st_write (body : Py.str)
| st_title (body : Py.str)
| st_markdown (body : Py.str)
| st_text_area_show (label value : Py.str)
| st_spinner (text : Py.str)
| py_print (line : Py.str)
(* calls that leave the process *)
| OllamaEmbeddings (model : string)
| FAISS_load_local (path : string)
| FAISS_save_local (path : string) (n_entries : nat)
| TextLoader_load (path : string)
| embed_query (text : Py.str)
| embed_documents (texts : list Py.str)
| index_search (k : nat)
| ollama_chat (model : string) (messages : list message)
| PdfReader (file : UploadedFile)
| page_extract_text (page_number : nat).

Abbreviation trace := (list event).

Inductive res (A : Type) :=
| Ok (a : A)                 (* normal return *)
| Raise (e : Py.exn)         (* an exception is propagating *)
| Halt.                      (* [st.stop()] ended the script run *)
Arguments Raise {A} e.
Arguments Halt {A}.

(** A computation: what it logged, and how it ended. *)
Definition M (A : Type) : Type := (trace * res A)%type.

Definition ret {A} (a : A) : M A := ([], Ok a).

Definition bind {A B} (m : M A) (k : A -> M B) : M B :=
  match m with
  | (t, Ok a) => let (t', r) := k a in (t ++ t', r)
  | (t, Raise e) => (t, Raise e)
  | (t, Halt) => (t, Halt)
  end.

Declare Scope py_scope.
Delimit Scope py_scope with py.
Notation "x <- m ;; k" := (bind m (fun x => k))
  (at level 100, m at next level, right associativity) : py_scope.
Notation "' p <- m ;; k" := (bind m (fun p => k))
  (at level 100, p pattern, m at next level, right associativity) : py_scope.
Notation "m ;;; k" := (bind m (fun _ => k))
  (at level 100, right associativity) : py_scope.
Open Scope py_scope.

(** Log one display call. *)
Definition emit (e : event) : M unit := ([e], Ok tt).

(** Log a call that leaves the process and take the oracle's answer. *)
Definition call {A} (e : event) (o : Py.outcome A) : M A :=
  match o with
  | Py.Returns a => ([e], Ok a)
  | Py.Raises x => ([e], Raise x)
  end.

Definition raise {A} (x : Py.exn) : M A := ([], Raise x).

(** [st.stop()] *)
Definition st_stop {A} : M A := ([], Halt).

(** [try: body except Exception as e: handler(e)] *)
Definition try_except {A} (body : M A) (handler : Py.exn -> M A) : M A :=
  match body with
  | (t, Raise e) => let (t', r) := handler e in (t ++ t', r)
  | _ => body
  end.

Definition trace_of {A} (m : M A) : trace := fst m.
Definition result_of {A} (m : M A) : res A := snd m.

(** ** The vector index *)

(** An embedding vector.  The floating-point components are abstracted to
    integers: the audit path only compares similarity scores. *)
Definition vec := list Z.

(** One entry of the persisted index: a policy chunk and its embedding. *)
Record entry := mkEntry {
  chunk : Document;
  embedding : vec
}.

Definition index := list entry.

Module VectorIndex.

(** Modelled from the spec: the nearest-neighbour search of the FAISS store
    behind [knowledge_base.similarity_search] is library code that is not
    part of the repository.  The spec (4.2, 3) gives its contract:
    the result has [min(k, size)] entries ranked by descending similarity,
    ties broken by index-insertion order.  [rank_scored] ranks the entries
    that follow [x] in the index and then puts [x] in with [insert_ranked],
    which passes the entries of strictly higher score only: [x] ends up
    before every later entry of the same score, so the ranking is a stable
    sort by descending score. *)
Fixpoint insert_ranked (x : Z * entry) (l : list (Z * entry)) : list (Z * entry) :=
  match l with
  | [] => [x]
  | y :: l' =>
      if (fst x <? fst y)%Z then y :: insert_ranked x l'
      else x :: y :: l'
  end.

Fixpoint rank_scored (l : list (Z * entry)) : list (Z * entry) :=
  match l with
  | [] => []
  | x :: l' => insert_ranked x (rank_scored l')
  end.

Definition scored (similarity : vec -> vec -> Z) (q : vec) (idx : index)
  : list (Z * entry) :=
  map (fun e => (similarity q (embedding e), e)) idx.

(** [search(query_embedding, k)] *)
Definition search (similarity : vec -> vec -> Z) (idx : index) (q : vec) (k : nat)
  : list (Z * entry) :=
  firstn k (rank_scored (scored similarity q idx)).

End VectorIndex.

(** ** The world outside the process *)

(** A parsed PDF page: what [page.extract_text()] does when called. *)
Record PageObject := mkPage {
  extract_text : Py.outcome Py.value
}.

Record World := mkWorld {
  (* [OllamaEmbeddings(model=...)] *)
  w_OllamaEmbeddings : string -> Py.outcome unit;
  (* [FAISS.load_local(path, embeddings, ...)] *)
  w_FAISS_load_local : string -> Py.outcome index;
  (* the embedder applied to a query string *)
  w_embed_query : Py.str -> Py.outcome vec;
  (* the embedder applied to the chunk texts at build time *)
  w_embed_documents : list Py.str -> Py.outcome (list vec);
  (* the metric of the index *)
  w_similarity : vec -> vec -> Z;
  (* [ollama.chat(model=..., messages=...)['message']['content']] *)
  w_ollama_chat : string -> list message -> Py.outcome Py.str;
  (* [PyPDF2.PdfReader(file).pages] *)
  w_PdfReader : UploadedFile -> Py.outcome (list PageObject);
  (* [TextLoader(path).load()]: the text of the file *)
  w_TextLoader : string -> Py.outcome Py.str
}.

(** ** app.py *)

Module App.

Import Py.

(* --- CONFIGURATION --- *)
Definition EMBEDDING_MODEL : string := "nomic-embed-text".
Definition TEXT_MODEL : string := "llama3".
Definition VISION_MODEL : string := "llava".
Definition VECTOR_DB_PATH : string := "faiss_index".

(** The choices of [st.radio("What are we auditing?", ...)]. *)
Inductive AuditMode := UserPrompt | ModelOutput.

Definition audit_mode_label (m : AuditMode) : str :=
  match m with
  | UserPrompt => lit "User Prompt"
  | ModelOutput => lit "Model Output"
  end.

(** What the user has entered and pressed when the script runs. *)
Record UI := mkUI {
  audit_mode : AuditMode;
  text_input : str;                        (* [st.text_area] of tab 1 *)
  button_run_text_audit : bool;            (* [st.button("Run Text Audit")] *)
  uploaded_pdf : option UploadedFile;      (* [st.file_uploader], tab 2 *)
  button_audit_pdf : bool;                 (* [st.button("Audit PDF")] *)
  uploaded_img : option UploadedFile;      (* [st.file_uploader], tab 3 *)
  button_audit_image : bool                (* [st.button("Audit Image")] *)
}.

(** The token searched for in the judge's response. *)
Definition FAIL_token : str := lit "FAIL".

Definition msg_database_not_found : str :=
  [10060%N] ++ lit " Database not found. Please run 'create_db.py' first.".
Definition msg_database_active : str :=
  [9989%N] ++ lit " Policy Database Active".
Definition msg_current_policy : str :=
  lit "Current Policy: EU AI Act / Internal Rules".

Definition msg_title : str :=
  [128737%N; 65039%N] ++ lit " Multimodal AI Policy Auditor".
Definition msg_intro : str :=
  lit "Audit **User Prompts**, **Model Outputs**, **PDFs**, or **Images** against the Safety Policy.".
Definition msg_tab3_intro : str :=
  lit "Uses **Llava** (Vision Model) to scan images for prohibited symbols/actions.".

Definition vision_instruction : str :=
  lit "Describe the physical objects and actions in this image in strict detail. Be objective and factual. Do not minimize or soften the description. If there is a weapon, state clearly what kind of weapon it is.".

(** Eight spaces: the indentation inside the triple-quoted prompt. *)
Definition ind : str := lit "        ".

(** The f-string of the judge prompt, up to [{rules_text}] ... *)
Definition system_prompt_before_rules : str :=
  nl ++
  ind ++ lit "You are an AI Safety Compliance Officer." ++ nl ++
  ind ++ lit "Audit the following CONTENT against the SAFETY RULES." ++ nl ++
  ind ++ nl ++
  ind ++ lit "SAFETY RULES:" ++ nl ++
  ind.

(** ... and from there on. *)
Definition system_prompt_after_rules : str :=
  nl ++
  ind ++ nl ++
  ind ++ lit "INSTRUCTIONS:" ++ nl ++
  ind ++ lit "- Determine if the CONTENT violates the rules." ++ nl ++
  ind ++ lit "- If text is safe, start with " ++ dq ++ [128994%N] ++ lit " PASS" ++ dq ++ lit "." ++ nl ++
  ind ++ lit "- If unsafe, start with " ++ dq ++ [128308%N] ++ lit " FAIL" ++ dq ++ lit "." ++ nl ++
  ind ++ lit "- Cite specific rule numbers." ++ nl ++
  ind.

Definition system_prompt (rules_text : str) : str :=
  system_prompt_before_rules ++ rules_text ++ system_prompt_after_rules.

Section WithWorld.

Variable w : World.

(* --- LOAD DATABASE --- *)
Definition load_knowledge_base : M (option index) :=
  try_except
    (embeddings <- call (OllamaEmbeddings EMBEDDING_MODEL)
                        (w_OllamaEmbeddings w EMBEDDING_MODEL);;
     db <- call (FAISS_load_local VECTOR_DB_PATH)
                (w_FAISS_load_local w VECTOR_DB_PATH);;
     ret (Some db))
    (fun e => ret None).

(* --- HELPER FUNCTIONS --- *)

(** [text += v]: defined on a [str] right operand only. *)
Definition str_iadd (text : str) (v : value) : M str :=
  match v with
  | Str s => ret (text ++ s)
  | None_ => raise TypeError_concat_None
  end.

(** The [for page in reader.pages] loop, from page number [n] on. *)
Fixpoint extract_pages (pages : list PageObject) (n : nat) (text : str) : M str :=
  match pages with
  | [] => ret text
  | page :: rest =>
      v <- call (page_extract_text n) (extract_text page);;
      text' <- str_iadd text v;;
      extract_pages rest (S n) text'
  end.

Definition extract_text_from_pdf (file : UploadedFile) : M str :=
  pages <- call (PdfReader file) (w_PdfReader w file);;
  extract_pages pages 0 [].

Definition vision_messages (image_bytes : bytes) : list message :=
  [Message "user" vision_instruction [image_bytes]].

Definition analyze_image (image_bytes : bytes) : M str :=
  try_except
    (call (ollama_chat VISION_MODEL (vision_messages image_bytes))
          (w_ollama_chat w VISION_MODEL (vision_messages image_bytes)))
    (fun e => ret (lit "Error using Vision model: " ++ exn_str e
                     ++ lit ". (Did you run 'ollama pull llava'?)")).

(** [knowledge_base.similarity_search(query, k=k)]: the query is embedded,
    the index searched, and the documents of the hits returned in rank
    order. *)
Definition similarity_search (knowledge_base : index) (query : str) (k : nat)
  : M (list Document) :=
  q <- call (embed_query query) (w_embed_query w query);;
  emit (index_search k);;;
  ret (map (fun hit => chunk (snd hit))
           (VectorIndex.search (w_similarity w) knowledge_base q k)).

Definition judge_messages (rules_text content_to_audit : str) : list message :=
  [Message "system" (system_prompt rules_text) [];
   Message "user" (lit "CONTENT TO AUDIT: " ++ content_to_audit) []].

Definition run_audit (knowledge_base : index)
           (content_to_audit context_label : str) : M (str * str) :=
  emit (st_spinner (lit "Auditing " ++ context_label ++ lit "..."));;;
  (* 1. Retrieve Rules *)
  retrieved_docs <- similarity_search knowledge_base content_to_audit 3;;
  let rules_text := join (nl ++ nl) (map page_content retrieved_docs) in
  (* 2./3. System prompt, call Llama 3 *)
  response <- call (ollama_chat TEXT_MODEL (judge_messages rules_text content_to_audit))
                   (w_ollama_chat w TEXT_MODEL (judge_messages rules_text content_to_audit));;
  ret (response, rules_text).

(* --- UI TABS --- *)

(* TAB 1: TEXT (Prompts OR Outputs) *)
(* [st.radio("What are we auditing?", ...)] and
   [st.text_area(f"Enter {audit_mode}:", height=200)] are input widgets: what
   they return is in [ui]; their labels are not part of the trace. *)
Definition tab1 (knowledge_base : index) (ui : UI) : M unit :=
  if button_run_text_audit ui then
    if truthy (text_input ui) then
      '(result, context) <- run_audit knowledge_base (text_input ui)
                                      (audit_mode_label (audit_mode ui));;
      (if contains FAIL_token result then emit (st_error result)
       else emit (st_success result));;;
      emit (st_write context)
    else
      emit (st_warning (lit "Please enter text."))
  else ret tt.

(* TAB 2: PDF *)
Definition tab2 (knowledge_base : index) (ui : UI) : M unit :=
  match uploaded_pdf ui with
  | Some pdf =>
      if button_audit_pdf ui then
        (* 1. Extract Text *)
        pdf_text <- extract_text_from_pdf pdf;;
        emit (st_info (lit "Extracted " ++ of_nat (len pdf_text)
                         ++ lit " characters from PDF."));;;
        (* 2. Audit *)
        '(result, context) <- run_audit knowledge_base pdf_text (lit "PDF Content");;
        if contains FAIL_token result then emit (st_error result)
        else emit (st_success result)
      else ret tt
  | None => ret tt
  end.

(* TAB 3: IMAGE *)
Definition tab3 (knowledge_base : index) (ui : UI) : M unit :=
  emit (st_write msg_tab3_intro);;;
  match uploaded_img ui with
  | Some img =>
      if button_audit_image ui then
        let img_bytes := getvalue img in
        (* 1. Vision Analysis *)
        emit (st_spinner ([128064%N] ++ lit " Vision Model analyzing image content..."));;;
        visual_description <- analyze_image img_bytes;;
        emit (st_text_area_show (lit "Vision Model Description:") visual_description);;;
        (* 2. Safety Audit on the Description *)
        '(result, context) <- run_audit knowledge_base visual_description
                                        (lit "Image Description");;
        if contains FAIL_token result then emit (st_error result)
        else emit (st_success result)
      else ret tt
  | None => ret tt
  end.

(** [@st.cache_resource]: [None] before the first call, afterwards the
    stored return value of [load_knowledge_base]. *)
Definition cache_resource := option (option index).

Definition load_knowledge_base_cached (c : cache_resource)
  : M (option index) * cache_resource :=
  match c with
  | Some v => (ret v, c)
  | None =>
      let m := load_knowledge_base in
      (m, match result_of m with Ok v => Some v | _ => None end)
  end.

(** One run of the script, top to bottom.  ([st.set_page_config] and the
    input widgets display no text of the audit and log nothing.) *)
Definition app (c : cache_resource) (ui : UI) : M unit * cache_resource :=
  let (loaded, c') := load_knowledge_base_cached c in
  (emit (st_title msg_title);;;
   emit (st_markdown msg_intro);;;
   knowledge_base <- loaded;;
   match knowledge_base with
   | None =>
       emit (st_error msg_database_not_found);;;
       st_stop
   | Some kb =>
       emit (st_success msg_database_active);;;
       emit (st_info msg_current_policy);;;
       tab1 kb ui;;;
       tab2 kb ui;;;
       tab3 kb ui
   end,
   c').

(** The serving process: Streamlit re-runs the script on every
    interaction, with the resource cache carried over. *)
Fixpoint serve (c : cache_resource) (interactions : list UI) : list (M unit) :=
  match interactions with
  | [] => []
  | ui :: rest =>
      let (m, c') := app c ui in
      m :: serve c' rest
  end.

End WithWorld.

End App.

(** ** The chunker *)

Module Chunker.

(** A chunk of a document: its place in the sequence, its text and the
    character range it covers. *)
Record Chunk := mkChunk {
  source_document_id : string;
  sequence_index : nat;
  text : Py.str;
  char_start : nat;
  char_end : nat
}.

Definition ConfigurationError : Py.exn :=
  Py.Exn "ValueError" (Py.lit "chunk_size and overlap must be positive with overlap < chunk_size").

(** [s[i]], with a code point no text holds when out of range. *)
Definition char_at (s : Py.str) (i : nat) : N := nth i s 1114112%N.

(** Position [c] of [s] is just after a blank line. *)
Definition paragraph_boundary (s : Py.str) (c : nat) : bool :=
  (2 <=? c) && N.eqb (char_at s (c - 2)) 10 && N.eqb (char_at s (c - 1)) 10.

(** Position [c] of [s] is just after the end of a sentence or of a line. *)
Definition sentence_boundary (s : Py.str) (c : nat) : bool :=
  (1 <=? c) &&
  let x := char_at s (c - 1) in
  N.eqb x 46 || N.eqb x 33 || N.eqb x 63 || N.eqb x 10.

(** The admissible lengths of a non-final chunk, longest first:
    [chunk_size, chunk_size - 1, ..., overlap + 1]. *)
Definition candidates (chunk_size overlap : nat) : list nat :=
  List.rev (seq (S overlap) (chunk_size - overlap)).

(** Where to end a chunk of a text longer than [chunk_size]: at the last
    paragraph boundary that fits, else at the last sentence boundary that
    fits, else at the raw character boundary [chunk_size]. *)
Definition cut_point (rest : Py.str) (chunk_size overlap : nat) : nat :=
  match find (paragraph_boundary rest) (candidates chunk_size overlap) with
  | Some c => c
  | None =>
      match find (sentence_boundary rest) (candidates chunk_size overlap) with
      | Some c => c
      | None => chunk_size
      end
  end.

(** The chunks of [rest], the part of the document from [start] on. *)
Fixpoint split_from (fuel : nat) (src : string) (seq_idx start : nat) (rest : Py.str)
         (chunk_size overlap : nat) : list Chunk :=
  match fuel with
  | 0 => []
  | S fuel' =>
      if List.length rest <=? chunk_size then
        [mkChunk src seq_idx rest start (start + List.length rest)]
      else
        let c := cut_point rest chunk_size overlap in
        mkChunk src seq_idx (firstn c rest) start (start + c)
          :: split_from fuel' src (S seq_idx) (start + (c - overlap))
                        (skipn (c - overlap) rest) chunk_size overlap
  end.

(** Modelled from the spec: the splitter behind
    [RecursiveCharacterTextSplitter(...).split_documents] is library code
    that is not part of the repository.  The spec (4.1, 3) gives
    [split(document_text, chunk_size, overlap)]: invalid parameters fail
    fast; an empty document has no chunks; chunks cover the text in order,
    none longer than [chunk_size], consecutive ones sharing [overlap]
    characters, ending at a paragraph boundary where one fits, else at a
    sentence boundary, else at a raw character boundary. *)
Definition split (src : string) (document_text : Py.str) (chunk_size overlap : nat)
  : Py.outcome (list Chunk) :=
  if (0 <? overlap) && (overlap <? chunk_size) then
    match document_text with
    | [] => Py.Returns []
    | _ :: _ =>
        Py.Returns (split_from (List.length document_text) src 0 0 document_text
                               chunk_size overlap)
    end
  else Py.Raises ConfigurationError.

End Chunker.

(** ** create_db.py *)

Module CreateDb.

Import Py.

Definition POLICY_PATH : string := "safety_policy.txt".

Section WithWorld.

Variable w : World.

(** [text_splitter.split_documents(documents)] *)
Fixpoint split_documents (documents : list Document) (chunk_size chunk_overlap : nat)
  : M (list Document) :=
  match documents with
  | [] => ret []
  | d :: rest =>
      match Chunker.split (source d) (page_content d) chunk_size chunk_overlap with
      | Returns cs =>
          more <- split_documents rest chunk_size chunk_overlap;;
          ret (map (fun c => mkDocument (Chunker.text c) (source d)) cs ++ more)
      | Raises e => raise e
      end
  end.

Definition IndexError_list_index : exn :=
  Exn "IndexError" (lit "list index out of range").

(** [FAISS.from_documents(chunks, embeddings)]: the chunk texts are embedded
    in one call, the dimension of the index is read off the first vector,
    [len(embeddings[0])], which raises [IndexError] when there is no vector
    (as for an empty list of chunks), and the index is built from all
    entries at once. *)
Definition FAISS_from_documents (chunks : list Document) : M index :=
  vectors <- call (embed_documents (map page_content chunks))
                  (w_embed_documents w (map page_content chunks));;
  match vectors with
  | [] => raise IndexError_list_index
  | _ :: _ => ret (map (fun cv => mkEntry (fst cv) (snd cv)) (combine chunks vectors))
  end.

Definition create_vector_db : M unit :=
  emit (py_print ([9203%N] ++ lit " Loading safety policy..."));;;
  policy <- call (TextLoader_load POLICY_PATH) (w_TextLoader w POLICY_PATH);;
  let documents := [mkDocument policy POLICY_PATH] in
  (* 2. Split text into chunks *)
  chunks <- split_documents documents 500 50;;
  emit (py_print ([128196%N] ++ lit " Split policy into "
                    ++ of_nat (List.length chunks) ++ lit " chunks."));;;
  (* 3. Create the FAISS Vector Database *)
  emit (py_print ([128190%N] ++ lit " Creating FAISS Vector Database..."));;;
  vector_db <- FAISS_from_documents chunks;;
  (* 4. Save it locally *)
  emit (FAISS_save_local "faiss_index" (List.length vector_db));;;
  emit (py_print ([9989%N] ++ lit " Database saved successfully to folder: 'faiss_index'")).

(** The script: the embedder is set up at import, then [create_vector_db()]. *)
Definition main : M unit :=
  embeddings <- call (OllamaEmbeddings "nomic-embed-text")
                     (w_OllamaEmbeddings w "nomic-embed-text");;
  create_vector_db.

End WithWorld.

End CreateDb.

(** ** Reading a trace *)

(** The two renderings of a verdict: [st.error] shows a FAIL, [st.success]
    a PASS. *)
Inductive verdict := PASS | FAIL.

Definition verdict_of_event (e : event) : option (verdict * Py.str) :=
  match e with
  | st_error body => Some (FAIL, body)
  | st_success body => Some (PASS, body)
  | _ => None
  end.

(** The verdicts a trace displays, in order, each with the text shown. *)
Fixpoint verdicts_shown (t : trace) : list (verdict * Py.str) :=
  match t with
  | [] => []
  | e :: t' =>
      match verdict_of_event e with
      | Some v => v :: verdicts_shown t'
      | None => verdicts_shown t'
      end
  end.

(** The Retriever at work: embedding a query, searching the index. *)
Definition retrieval (e : event) : bool :=
  match e with
  | embed_query _ | index_search _ => true
  | _ => false
  end.

(** A call of the judge model. *)
Definition judging (e : event) : bool :=
  match e with
  | ollama_chat model _ => String.eqb model App.TEXT_MODEL
  | _ => false
  end.

(** Retrieval or judging work. *)
Definition audit_work (e : event) : bool := retrieval e || judging e.

(** What a run puts on the page. *)
Definition is_display (e : event) : bool :=
  match e with
  | st_error _ | st_success _ | st_warning _ | st_info _ | st_write _
  | st_title _ | st_markdown _ | st_text_area_show _ _ | st_spinner _ => true
  | _ => false
  end.

Definition displayed (t : trace) : trace := filter is_display t.

(** A run that refuses to serve: it reports the missing database, stops,
    and has done no retrieval or judging. *)
Definition refuses_to_serve (run : M unit) : Prop :=
  result_of run = Halt /\
  displayed (trace_of run)
  = [st_title App.msg_title; st_markdown App.msg_intro;
     st_error App.msg_database_not_found] /\
  existsb audit_work (trace_of run) = false.

(** The message [analyze_image] returns when the vision call raised [e]. *)
Definition vision_error_message (e : Py.exn) : Py.str :=
  Py.lit "Error using Vision model: " ++ Py.exn_str e
    ++ Py.lit ". (Did you run 'ollama pull llava'?)".

(** The image audit stops at a failed vision call: the Retriever does not
    run and no PASS is shown. *)
Definition short_circuits_on_vision_failure (w : World) (kb : index) (ui : App.UI)
  : Prop :=
  forall img e,
    App.uploaded_img ui = Some img ->
    App.button_audit_image ui = true ->
    w_ollama_chat w App.VISION_MODEL (App.vision_messages (getvalue img)) = Py.Raises e ->
    existsb retrieval (trace_of (App.tab3 w kb ui)) = false /\
    ~ In PASS (map fst (verdicts_shown (trace_of (App.tab3 w kb ui)))).

(** [needle] occurs in [hay] as a contiguous substring. *)
Definition occurs (needle hay : Py.str) : Prop :=
  exists pre post, hay = pre ++ needle ++ post.


(** The texts of the hits, in order. *)
Definition hit_texts (hits : list (Z * entry)) : list Py.str :=
  map (fun hit => page_content (chunk (snd hit))) hits.



(** ** Concrete worlds and inputs *)

Module Examples.

Import Py App.

Definition policy_source : string := "safety_policy.txt".

Definition rule1 : str := lit "Rule 1: No violent content is permitted.".
Definition rule2 : str := lit "Rule 2: No personal data may be disclosed.".

(** A two-chunk policy index. *)
Definition kb2 : index :=
  [mkEntry (mkDocument rule1 policy_source) [1; 0]%Z;
   mkEntry (mkDocument rule2 policy_source) [0; 1]%Z].

(** Inner product. *)
Fixpoint dot (a b : vec) : Z :=
  match a, b with
  | x :: a', y :: b' => (x * y + dot a' b')%Z
  | _, _ => 0%Z
  end.

(** A world fixed by what loading the index, the vision model, the judge
    model and the PDF parser do; the embedder is up. *)
Definition world_of (load : outcome index) (vision judge : outcome str)
           (pdf : outcome (list PageObject)) : World :=
  mkWorld (fun _ => Returns tt)
          (fun _ => load)
          (fun _ => Returns [2; 1]%Z)
          (fun texts => Returns (map (fun _ => [1; 1]%Z) texts))
          dot
          (fun model _ => if String.eqb model VISION_MODEL then vision else judge)
          (fun _ => pdf)
          (fun _ => Returns rule1).

Definition pass_reply : str := [128994%N] ++ lit " PASS - no violation of Rule 4.2".
Definition fail_reply : str :=
  [128308%N] ++ lit " FAIL citing Rule 2.1: weapon depiction prohibited".

Definition page_two : str := lit "I will build a bomb".

(** Three pages, of which only the second has extractable text. *)
Definition three_pages : list PageObject :=
  [mkPage (Returns (Str [])); mkPage (Returns (Str page_two)); mkPage (Returns (Str []))].

(** Three pages, the second extracting to [None]. *)
Definition pages_with_None : list PageObject :=
  [mkPage (Returns (Str page_two)); mkPage (Returns None_); mkPage (Returns (Str []))].

Definition a_file : UploadedFile := mkUploadedFile [Init.Byte.x25; Init.Byte.x50].

Definition description : str := lit "A person holding a kitchen knife.".

Definition connection_refused : exn :=
  Exn "ConnectionError" (lit "connection refused").

Definition index_missing : exn :=
  Exn "RuntimeError" (lit "could not open faiss_index/index.faiss").

Definition dimension_mismatch : exn :=
  Exn "AssertionError" (lit "embedding dimension mismatch").

(** Every service answers; the judge finds a violation. *)
Definition w_fail : World :=
  world_of (Returns kb2) (Returns description) (Returns fail_reply) (Returns three_pages).

(** Every service answers; the judge finds no violation. *)
Definition w_pass : World :=
  world_of (Returns kb2) (Returns description) (Returns pass_reply) (Returns three_pages).

(** The vision service is down; the judge answers PASS. *)
Definition w_vision_down : World :=
  world_of (Returns kb2) (Raises connection_refused) (Returns pass_reply)
           (Returns three_pages).

(** The index cannot be loaded. *)
Definition w_no_index : World :=
  world_of (Raises index_missing) (Returns description) (Returns pass_reply)
           (Returns three_pages).

Definition w_dimension_mismatch : World :=
  world_of (Raises dimension_mismatch) (Returns description) (Returns pass_reply)
           (Returns three_pages).

(** The PDF parser rejects the file. *)
Definition w_pdf_broken : World :=
  world_of (Returns kb2) (Returns description) (Returns pass_reply)
           (Raises (Exn "PdfReadError" (lit "EOF marker not found"))).

(** A page of the PDF extracts to [None]. *)
Definition w_pdf_None : World :=
  world_of (Returns kb2) (Returns description) (Returns pass_reply)
           (Returns pages_with_None).

(** Everything entered, every button pressed. *)
Definition ui_all : UI :=
  mkUI UserPrompt page_two true (Some a_file) true (Some a_file) true.

(** Buttons pressed with nothing entered and nothing uploaded. *)
Definition ui_empty : UI :=
  mkUI UserPrompt [] true None true None true.

(** Only the image audit is requested. *)
Definition ui_image : UI :=
  mkUI UserPrompt [] false None false (Some a_file) true.

(** Only the PDF audit is requested. *)
Definition ui_pdf : UI :=
  mkUI UserPrompt [] false (Some a_file) true None false.

Definition rules12 : str := rule1 ++ nl ++ nl ++ rule2.

End Examples.

(** ** Further readings of a run *)

(** The display call of the verdict branch shared by the three tabs. *)
Definition verdict_event (result : Py.str) : event :=
  if Py.contains App.FAIL_token result then st_error result else st_success result.

(** What [analyze_image] hands back, on either outcome of the vision call. *)
Definition described (w : World) (image_bytes : bytes) : Py.str :=
  match w_ollama_chat w App.VISION_MODEL (App.vision_messages image_bytes) with
  | Py.Returns description => description
  | Py.Raises e => vision_error_message e
  end.

(** The calls of [load_knowledge_base]. *)
Definition is_load (e : event) : bool :=
  match e with
  | OllamaEmbeddings _ | FAISS_load_local _ => true
  | _ => false
  end.

Definition is_spinner (e : event) : bool :=
  match e with
  | st_spinner _ => true
  | _ => false
  end.

(** A trace without its spinner texts. *)
Definition without_spinners (t : trace) : trace :=
  filter (fun e => negb (is_spinner e)) t.

(** The same input with another choice of the "What are we auditing?" radio. *)
Definition with_audit_mode (m : App.AuditMode) (ui : App.UI) : App.UI :=
  App.mkUI m (App.text_input ui) (App.button_run_text_audit ui)
           (App.uploaded_pdf ui) (App.button_audit_pdf ui)
           (App.uploaded_img ui) (App.button_audit_image ui).

(** The three tabs in script order, as [app] runs them on a loaded index. *)
Definition tabs (w : World) (kb : index) (ui : App.UI) : M unit :=
  App.tab1 w kb ui;;; App.tab2 w kb ui;;; App.tab3 w kb ui.

(** How a tab ends once its [run_audit] has ended. *)
Definition after_audit {A} (r : res A) : res unit :=
  match r with
  | Ok _ => Ok tt
  | Raise e => Raise e
  | Halt => Halt
  end.



(** What a run on a loaded index shows before the tabs. *)
Definition page_header : trace :=
  [st_title App.msg_title; st_markdown App.msg_intro;
   st_success App.msg_database_active; st_info App.msg_current_policy].

Module MoreExamples.

Import Py App.

Definition timeout : exn := Exn "ReadTimeout" (lit "timed out").

(** The embedder is down; everything else answers. *)
Definition w_embedder_down : World :=
  mkWorld (fun _ => Returns tt)
          (fun _ => Returns Examples.kb2)
          (fun _ => Raises timeout)
          (fun _ => Raises timeout)
          Examples.dot
          (fun model _ => if String.eqb model VISION_MODEL
                          then Returns Examples.description
                          else Returns Examples.pass_reply)
          (fun _ => Returns Examples.three_pages)
          (fun _ => Returns Examples.rule1).

(** The judge model is down. *)
Definition w_judge_down : World :=
  Examples.world_of (Returns Examples.kb2) (Returns Examples.description)
                    (Raises timeout) (Returns Examples.three_pages).



(** A scanned PDF: two pages, neither with extractable text. *)
Definition scanned_pages : list PageObject :=
  [mkPage (Returns (Str [])); mkPage (Returns (Str []))].

Definition w_scanned_pdf : World :=
  Examples.world_of (Returns Examples.kb2) (Returns Examples.description)
                    (Returns Examples.pass_reply) (Returns scanned_pages).

(** Only the text audit is requested, with text entered. *)
Definition ui_text : UI :=
  mkUI ModelOutput Examples.page_two true None false None false.

End MoreExamples.

(** * Properties *)

Import Py App.

Unset Implicit Arguments.

(** ** The effect monad *)

Lemma bind_Ok {A B} (t : trace) (a : A) (k : A -> M B) :
  bind (t, Ok a) k = (t ++ trace_of (k a), result_of (k a)).
Proof. unfold bind, trace_of, result_of. destruct (k a); reflexivity. Qed.

Lemma bind_ret {A B} (a : A) (k : A -> M B) : bind (ret a) k = k a.
Proof. unfold bind, ret. destruct (k a); reflexivity. Qed.

Lemma trace_of_bind {A B} (m : M A) (k : A -> M B) :
  trace_of (bind m k)
  = trace_of m ++ match result_of m with Ok a => trace_of (k a) | _ => [] end.
Proof.
  destruct m as [t [a| e |]]; cbn [result_of snd trace_of fst].
  - now rewrite bind_Ok.
  - cbn. now rewrite app_nil_r.
  - cbn. now rewrite app_nil_r.
Qed.

Lemma bind_result_Raise {A B} (m : M A) (e : exn) (k : A -> M B) :
  result_of m = Raise e ->
  bind m k = (trace_of m, Raise e).
Proof. destruct m as [t r]; simpl; intros ->. reflexivity. Qed.

(** ** Strings *)

Lemma startswith_iff (s prefix : str) :
  startswith s prefix = true <-> exists post, s = prefix ++ post.
Proof.
  revert s; induction prefix as [|p prefix IH]; intros s; simpl.
  - split; [intros _; now exists s | intros _; destruct s; reflexivity].
  - destruct s as [|c s].
    + split; [discriminate | intros [post H]; discriminate].
    + cbn [startswith]. rewrite andb_true_iff, N.eqb_eq, IH. split.
      * intros [-> [post ->]]. now exists post.
      * intros [post H]. injection H as -> ->. split; [reflexivity | now exists post].
Qed.

Lemma contains_iff (needle hay : str) :
  contains needle hay = true <-> occurs needle hay.
Proof.
  unfold occurs. induction hay as [|c hay IH].
  - cbn [contains]. rewrite orb_false_r, startswith_iff. split.
    + intros [post H]. exists [], post. exact H.
    + intros [pre [post H]]. destruct pre as [|x pre]; [|discriminate].
      now exists post.
  - cbn [contains]. rewrite orb_true_iff, startswith_iff, IH. split.
    + intros [[post H] | [pre [post H]]].
      * exists [], post. exact H.
      * exists (c :: pre), post. simpl. now rewrite H.
    + intros [pre [post H]]. destruct pre as [|x pre].
      * left. now exists post.
      * right. injection H as _ H. now exists pre, post.
Qed.

Lemma contains_false_iff (needle hay : str) :
  contains needle hay = false <-> ~ occurs needle hay.
Proof.
  rewrite <- contains_iff. destruct (contains needle hay); split; congruence.
Qed.

(** ** Traces *)

Lemma verdicts_shown_app (t1 t2 : trace) :
  verdicts_shown (t1 ++ t2) = verdicts_shown t1 ++ verdicts_shown t2.
Proof.
  induction t1 as [|e t1 IH]; simpl; [reflexivity|].
  destruct (verdict_of_event e); simpl; now rewrite IH.
Qed.

(** [run_audit] itself displays no verdict. *)
Lemma run_audit_shows_no_verdict (w : World) kb content_to_audit label :
  verdicts_shown (trace_of (run_audit w kb content_to_audit label)) = [].
Proof.
  unfold run_audit, similarity_search, emit, call, ret, bind, trace_of.
  destruct (w_embed_query w content_to_audit); simpl; [|reflexivity].
  destruct (w_ollama_chat w TEXT_MODEL _); reflexivity.
Qed.

(** ** The verdict shown by each tab *)

Lemma tab1_verdict (w : World) kb ui response context :
  button_run_text_audit ui = true ->
  truthy (text_input ui) = true ->
  result_of (run_audit w kb (text_input ui) (audit_mode_label (audit_mode ui)))
    = Ok (response, context) ->
  verdicts_shown (trace_of (tab1 w kb ui))
  = [(if contains FAIL_token response then FAIL else PASS, response)].
Proof.
  intros Hb Ht Hr. unfold tab1. rewrite Hb, Ht, trace_of_bind, Hr.
  rewrite verdicts_shown_app, run_audit_shows_no_verdict.
  destruct (contains FAIL_token response); reflexivity.
Qed.

Lemma extract_pages_shows_no_verdict (pages : list PageObject) n text :
  verdicts_shown (trace_of (extract_pages pages n text)) = [].
Proof.
  revert n text; induction pages as [|p pages IH]; intros n text; [reflexivity|].
  cbn [extract_pages]. destruct (extract_text p) as [[s|]|e]; cbn [call].
  - rewrite bind_Ok. cbn [str_iadd]. rewrite bind_ret.
    cbn [trace_of fst]. rewrite verdicts_shown_app. apply IH.
  - reflexivity.
  - reflexivity.
Qed.

Lemma extract_text_from_pdf_shows_no_verdict (w : World) file :
  verdicts_shown (trace_of (extract_text_from_pdf w file)) = [].
Proof.
  unfold extract_text_from_pdf. destruct (w_PdfReader w file) as [pages|e]; cbn [call].
  - rewrite bind_Ok. cbn [trace_of fst]. rewrite verdicts_shown_app.
    apply extract_pages_shows_no_verdict.
  - reflexivity.
Qed.

Lemma tab2_verdict (w : World) kb ui pdf pdf_text response context :
  uploaded_pdf ui = Some pdf ->
  button_audit_pdf ui = true ->
  result_of (extract_text_from_pdf w pdf) = Ok pdf_text ->
  result_of (run_audit w kb pdf_text (lit "PDF Content")) = Ok (response, context) ->
  verdicts_shown (trace_of (tab2 w kb ui))
  = [(if contains FAIL_token response then FAIL else PASS, response)].
Proof.
  intros Hu Hb He Hr. unfold tab2. rewrite Hu, Hb.
  rewrite trace_of_bind, He, trace_of_bind.
  cbn [emit result_of snd trace_of fst]. rewrite trace_of_bind, Hr.
  rewrite !verdicts_shown_app, extract_text_from_pdf_shows_no_verdict.
  rewrite run_audit_shows_no_verdict.
  destruct (contains FAIL_token response); reflexivity.
Qed.

(** [analyze_image] returns on every outcome of the vision service. *)
Lemma analyze_image_returns (w : World) image_bytes :
  analyze_image w image_bytes
  = ([ollama_chat VISION_MODEL (vision_messages image_bytes)],
     Ok match w_ollama_chat w VISION_MODEL (vision_messages image_bytes) with
        | Returns description => description
        | Raises e => lit "Error using Vision model: " ++ exn_str e
                        ++ lit ". (Did you run 'ollama pull llava'?)"
        end).
Proof.
  unfold analyze_image.
  destruct (w_ollama_chat w VISION_MODEL (vision_messages image_bytes)); reflexivity.
Qed.

Lemma tab3_verdict (w : World) kb ui img description response context :
  uploaded_img ui = Some img ->
  button_audit_image ui = true ->
  result_of (analyze_image w (getvalue img)) = Ok description ->
  result_of (run_audit w kb description (lit "Image Description")) = Ok (response, context) ->
  verdicts_shown (trace_of (tab3 w kb ui))
  = [(if contains FAIL_token response then FAIL else PASS, response)].
Proof.
  intros Hu Hb Hd Hr. unfold tab3. rewrite Hu, Hb.
  rewrite trace_of_bind. cbn [emit result_of snd trace_of fst].
  rewrite trace_of_bind. cbn [emit result_of snd trace_of fst].
  rewrite trace_of_bind, Hd, trace_of_bind. cbn [emit result_of snd trace_of fst].
  rewrite trace_of_bind, Hr, analyze_image_returns.
  cbn [trace_of fst]. rewrite !verdicts_shown_app, run_audit_shows_no_verdict.
  destruct (contains FAIL_token response); reflexivity.
Qed.

Lemma shown_verdict_iff (t : trace) (response : str) :
  verdicts_shown t = [(if contains FAIL_token response then FAIL else PASS, response)] ->
  (verdicts_shown t = [(FAIL, response)] <-> occurs (lit "FAIL") response) /\
  (verdicts_shown t = [(PASS, response)] <-> ~ occurs (lit "FAIL") response).
Proof.
  intros ->. fold FAIL_token.
  destruct (contains FAIL_token response) eqn:E.
  - apply contains_iff in E. repeat split; try congruence; tauto.
  - apply contains_false_iff in E. repeat split; try congruence; tauto.
Qed.

(** C1.  In each of the three tabs, once the judge model has answered with
    [response], exactly one verdict is displayed, with the response as its
    text, and it is FAIL if and only if the substring "FAIL" occurs somewhere
    in [response]; it is PASS if and only if it does not. *)
Theorem C1_fail_iff_FAIL_occurs (w : World) (kb : index) (ui : UI) (response context : str) :
  (button_run_text_audit ui = true ->
   truthy (text_input ui) = true ->
   result_of (run_audit w kb (text_input ui) (audit_mode_label (audit_mode ui)))
     = Ok (response, context) ->
   (verdicts_shown (trace_of (tab1 w kb ui)) = [(FAIL, response)]
      <-> occurs (lit "FAIL") response) /\
   (verdicts_shown (trace_of (tab1 w kb ui)) = [(PASS, response)]
      <-> ~ occurs (lit "FAIL") response))
  /\
  (forall pdf pdf_text,
     uploaded_pdf ui = Some pdf ->
     button_audit_pdf ui = true ->
     result_of (extract_text_from_pdf w pdf) = Ok pdf_text ->
     result_of (run_audit w kb pdf_text (lit "PDF Content")) = Ok (response, context) ->
     (verdicts_shown (trace_of (tab2 w kb ui)) = [(FAIL, response)]
        <-> occurs (lit "FAIL") response) /\
     (verdicts_shown (trace_of (tab2 w kb ui)) = [(PASS, response)]
        <-> ~ occurs (lit "FAIL") response))
  /\
  (forall img description,
     uploaded_img ui = Some img ->
     button_audit_image ui = true ->
     result_of (analyze_image w (getvalue img)) = Ok description ->
     result_of (run_audit w kb description (lit "Image Description"))
       = Ok (response, context) ->
     (verdicts_shown (trace_of (tab3 w kb ui)) = [(FAIL, response)]
        <-> occurs (lit "FAIL") response) /\
     (verdicts_shown (trace_of (tab3 w kb ui)) = [(PASS, response)]
        <-> ~ occurs (lit "FAIL") response)).
Proof.
  split; [|split].
  - intros Hb Ht Hr. apply shown_verdict_iff. now apply tab1_verdict with context.
  - intros pdf pdf_text Hu Hb He Hr. apply shown_verdict_iff.
    now apply tab2_verdict with pdf pdf_text context.
  - intros img description Hu Hb Hd Hr. apply shown_verdict_iff.
    now apply tab3_verdict with img description context.
Qed.

Lemma C1_fail_iff_FAIL_occurs_witness :
  let w := Examples.w_fail in
  let ui := Examples.ui_all in
  let r := Examples.fail_reply in
  (verdicts_shown (trace_of (tab1 w Examples.kb2 ui)) = [(FAIL, r)]
     <-> occurs (lit "FAIL") r) /\
  (verdicts_shown (trace_of (tab2 w Examples.kb2 ui)) = [(FAIL, r)]
     <-> occurs (lit "FAIL") r) /\
  (verdicts_shown (trace_of (tab3 w Examples.kb2 ui)) = [(FAIL, r)]
     <-> occurs (lit "FAIL") r).
Proof.
  intros w ui r.
  destruct (C1_fail_iff_FAIL_occurs w Examples.kb2 ui r Examples.rules12)
    as (H1 & H2 & H3).
  split; [|split].
  - apply H1; reflexivity.
  - apply (H2 Examples.a_file Examples.page_two); reflexivity.
  - apply (H3 Examples.a_file Examples.description); reflexivity.
Defined.

(** ** The image audit when the vision service is down *)

Lemma analyze_image_on_failure (w : World) image_bytes e :
  w_ollama_chat w VISION_MODEL (vision_messages image_bytes) = Raises e ->
  analyze_image w image_bytes
  = ([ollama_chat VISION_MODEL (vision_messages image_bytes)],
     Ok (vision_error_message e)).
Proof. intros H. rewrite analyze_image_returns, H. reflexivity. Qed.

(** [run_audit] starts by embedding the content it was given. *)
Lemma run_audit_embeds_content (w : World) kb content_to_audit label :
  exists rest,
    trace_of (run_audit w kb content_to_audit label)
    = st_spinner (lit "Auditing " ++ label ++ lit "...")
        :: embed_query content_to_audit :: rest.
Proof.
  unfold run_audit, similarity_search. rewrite trace_of_bind.
  cbn [emit trace_of fst result_of snd app]. rewrite !trace_of_bind.
  destruct (w_embed_query w content_to_audit); cbn [call trace_of fst app];
    eexists; reflexivity.
Qed.

(** What tab 3 logs once the image is uploaded and the button pressed. *)
Lemma tab3_trace (w : World) kb ui img :
  uploaded_img ui = Some img ->
  button_audit_image ui = true ->
  forall description,
    result_of (analyze_image w (getvalue img)) = Ok description ->
    trace_of (tab3 w kb ui)
    = [st_write msg_tab3_intro;
       st_spinner ([128064%N] ++ lit " Vision Model analyzing image content...");
       ollama_chat VISION_MODEL (vision_messages (getvalue img));
       st_text_area_show (lit "Vision Model Description:") description]
      ++ trace_of (run_audit w kb description (lit "Image Description"))
      ++ match result_of (run_audit w kb description (lit "Image Description")) with
         | Ok (result, _) =>
             [if contains FAIL_token result then st_error result
              else st_success result]
         | _ => []
         end.
Proof.
  intros Hu Hb description Hd. unfold tab3. rewrite Hu, Hb.
  rewrite trace_of_bind. cbn [emit result_of snd trace_of fst].
  rewrite trace_of_bind. cbn [emit result_of snd trace_of fst].
  rewrite trace_of_bind, Hd, trace_of_bind. cbn [emit result_of snd trace_of fst].
  rewrite trace_of_bind, analyze_image_returns. cbn [trace_of fst app].
  destruct (result_of (run_audit w kb description (lit "Image Description")))
    as [[result context]| |]; [|reflexivity..].
  destruct (contains FAIL_token result); reflexivity.
Qed.

(** C2, as the code has it.  When the vision call of an image audit raises
    [e], the message "Error using Vision model: ..." that [analyze_image]
    returns is displayed as the description and then audited as any
    description is: it is the content [run_audit] embeds and hands to the
    judge, and the verdict displayed is the one the judge's response yields,
    PASS whenever "FAIL" does not occur in it. *)
Theorem C2_vision_error_is_audited (w : World) kb ui img e :
  uploaded_img ui = Some img ->
  button_audit_image ui = true ->
  w_ollama_chat w VISION_MODEL (vision_messages (getvalue img)) = Raises e ->
  trace_of (tab3 w kb ui)
  = [st_write msg_tab3_intro;
     st_spinner ([128064%N] ++ lit " Vision Model analyzing image content...");
     ollama_chat VISION_MODEL (vision_messages (getvalue img));
     st_text_area_show (lit "Vision Model Description:") (vision_error_message e)]
    ++ trace_of (run_audit w kb (vision_error_message e) (lit "Image Description"))
    ++ match result_of (run_audit w kb (vision_error_message e)
                                 (lit "Image Description")) with
       | Ok (result, _) =>
           [if contains FAIL_token result then st_error result
            else st_success result]
       | _ => []
       end
  /\ In (embed_query (vision_error_message e)) (trace_of (tab3 w kb ui))
  /\ forall response context,
       result_of (run_audit w kb (vision_error_message e) (lit "Image Description"))
         = Ok (response, context) ->
       ~ occurs (lit "FAIL") response ->
       verdicts_shown (trace_of (tab3 w kb ui)) = [(PASS, response)].
Proof.
  intros Hu Hb He.
  assert (Hd : result_of (analyze_image w (getvalue img)) = Ok (vision_error_message e))
    by now rewrite (analyze_image_on_failure _ _ _ He).
  pose proof (tab3_trace w kb ui img Hu Hb _ Hd) as Ht.
  split; [exact Ht|split].
  - rewrite Ht.
    destruct (run_audit_embeds_content w kb (vision_error_message e)
                (lit "Image Description")) as [rest ->].
    apply in_or_app; right. apply in_or_app; left. right; left; reflexivity.
  - intros response context Hr Hno.
    rewrite (tab3_verdict w kb ui img _ _ _ Hu Hb Hd Hr).
    apply contains_false_iff in Hno. fold FAIL_token in Hno. now rewrite Hno.
Qed.

Lemma C2_vision_error_is_audited_witness :
  let w := Examples.w_vision_down in
  let err := vision_error_message Examples.connection_refused in
  In (embed_query err) (trace_of (tab3 w Examples.kb2 Examples.ui_image)) /\
  verdicts_shown (trace_of (tab3 w Examples.kb2 Examples.ui_image))
  = [(PASS, Examples.pass_reply)].
Proof.
  intros w err.
  destruct (C2_vision_error_is_audited w Examples.kb2 Examples.ui_image
              Examples.a_file Examples.connection_refused
              eq_refl eq_refl eq_refl) as (_ & Hin & Hpass).
  split; [exact Hin|].
  apply (Hpass Examples.pass_reply Examples.rules12); [reflexivity|].
  apply contains_false_iff. reflexivity.
Defined.

(** C2, as stated, fails: with the vision service refusing the connection
    and the judge answering PASS, the image audit embeds the error message,
    searches the index and shows a PASS. *)
Lemma C2_counterexample :
  w_ollama_chat Examples.w_vision_down VISION_MODEL
                (vision_messages (getvalue Examples.a_file))
  = Raises Examples.connection_refused /\
  existsb retrieval
          (trace_of (tab3 Examples.w_vision_down Examples.kb2 Examples.ui_image))
  = true /\
  verdicts_shown (trace_of (tab3 Examples.w_vision_down Examples.kb2 Examples.ui_image))
  = [(PASS, Examples.pass_reply)] /\
  ~ short_circuits_on_vision_failure
      Examples.w_vision_down Examples.kb2 Examples.ui_image.
Proof.
  repeat split; try reflexivity.
  intros H.
  destruct (H Examples.a_file Examples.connection_refused eq_refl eq_refl eq_refl)
    as [Hr _].
  vm_compute in Hr. discriminate Hr.
Qed.

(** ** Loading the index *)

(** Whatever the two calls of [load_knowledge_base] do, it returns. *)
Lemma load_knowledge_base_cases (w : World) :
  load_knowledge_base w
  = match w_OllamaEmbeddings w EMBEDDING_MODEL with
    | Raises _ => ([OllamaEmbeddings EMBEDDING_MODEL], Ok None)
    | Returns _ =>
        match w_FAISS_load_local w VECTOR_DB_PATH with
        | Raises _ =>
            ([OllamaEmbeddings EMBEDDING_MODEL; FAISS_load_local VECTOR_DB_PATH], Ok None)
        | Returns db =>
            ([OllamaEmbeddings EMBEDDING_MODEL; FAISS_load_local VECTOR_DB_PATH],
             Ok (Some db))
        end
    end.
Proof.
  unfold load_knowledge_base.
  destruct (w_OllamaEmbeddings w EMBEDDING_MODEL) as [u|e1]; [|reflexivity].
  destruct (w_FAISS_load_local w VECTOR_DB_PATH) as [db|e2]; reflexivity.
Qed.

Lemma load_failure_is_None (w : World) (e : exn) :
  w_FAISS_load_local w VECTOR_DB_PATH = Raises e ->
  result_of (load_knowledge_base w) = Ok None /\
  displayed (trace_of (load_knowledge_base w)) = [] /\
  existsb audit_work (trace_of (load_knowledge_base w)) = false.
Proof.
  intros H. rewrite load_knowledge_base_cases, H.
  destruct (w_OllamaEmbeddings w EMBEDDING_MODEL); repeat split; reflexivity.
Qed.

(** One run of the script when the index could not be loaded, be it on the
    first run or on a later one that finds [None] in the cache. *)
Lemma app_without_index (w : World) (e : exn) (c : cache_resource) (ui : UI) :
  w_FAISS_load_local w VECTOR_DB_PATH = Raises e ->
  c = None \/ c = Some None ->
  snd (app w c ui) = Some None /\ refuses_to_serve (fst (app w c ui)).
Proof.
  intros H Hc. destruct (load_failure_is_None w e H) as (Hr & Hd & Ha).
  unfold app, refuses_to_serve. destruct Hc as [-> | ->]; cbn [load_knowledge_base_cached].
  - destruct (load_knowledge_base w) as [t r]. cbn [result_of snd trace_of fst] in *.
    subst r. cbn [snd fst]. split; [reflexivity|].
    unfold bind, emit, st_stop. cbn [trace_of fst result_of snd app].
    unfold displayed in *.
    rewrite !filter_app, !existsb_app, Hd, Ha. repeat split; reflexivity.
  - cbn [snd fst]. repeat split; reflexivity.
Qed.

Lemma serve_without_index (w : World) (e : exn) (interactions : list UI) :
  w_FAISS_load_local w VECTOR_DB_PATH = Raises e ->
  forall c, c = None \/ c = Some None ->
  List.length (serve w c interactions) = List.length interactions /\
  Forall refuses_to_serve (serve w c interactions).
Proof.
  intros H. induction interactions as [|ui rest IH]; intros c Hc.
  - split; [reflexivity | constructor].
  - cbn [serve]. destruct (app_without_index w e c ui H Hc) as [Hc' Href].
    destruct (app w c ui) as [run c']. cbn [fst snd] in *.
    destruct (IH c' (or_intror Hc')) as [Hlen Hall].
    split; [cbn [List.length]; now rewrite Hlen | now constructor].
Qed.

(** C3.  If [FAISS.load_local] fails on the configured path, then from the
    start of the process on every run of the script, whatever the user has
    entered, uploaded or pressed, reports "Database not found" with
    [st.error], is halted by [st.stop()], embeds nothing, searches no index,
    calls no judge and shows no verdict. *)
Theorem C3_no_index_no_audit (w : World) (e : exn) (interactions : list UI) :
  w_FAISS_load_local w VECTOR_DB_PATH = Raises e ->
  List.length (serve w None interactions) = List.length interactions /\
  Forall refuses_to_serve (serve w None interactions).
Proof.
  intros H. apply (serve_without_index w e interactions H). now left.
Qed.

Lemma C3_no_index_no_audit_witness :
  Forall refuses_to_serve
         (serve Examples.w_no_index None
                [Examples.ui_all; Examples.ui_image; Examples.ui_empty]).
Proof.
  apply (C3_no_index_no_audit Examples.w_no_index Examples.index_missing
           [Examples.ui_all; Examples.ui_image; Examples.ui_empty]).
  reflexivity.
Defined.

Lemma load_knowledge_base_does_no_audit_work (w : World) :
  existsb audit_work (trace_of (load_knowledge_base w)) = false.
Proof.
  rewrite load_knowledge_base_cases.
  destruct (w_OllamaEmbeddings w EMBEDDING_MODEL); [|reflexivity].
  destruct (w_FAISS_load_local w VECTOR_DB_PATH); reflexivity.
Qed.

(** C10.  [load_knowledge_base] returns on every outcome of its two calls;
    an exception raised by [OllamaEmbeddings(...)] or by [FAISS.load_local],
    whatever its class and message, becomes the value [None]; and two worlds
    whose load fails with different exceptions yield the same value, the same
    log and the same run of the script. *)
Theorem C10_load_knowledge_base_never_raises (w : World) :
  (exists kb, result_of (load_knowledge_base w) = Ok kb) /\
  (forall e,
     w_OllamaEmbeddings w EMBEDDING_MODEL = Raises e \/
     w_FAISS_load_local w VECTOR_DB_PATH = Raises e ->
     result_of (load_knowledge_base w) = Ok None) /\
  (forall w' e e',
     w_OllamaEmbeddings w EMBEDDING_MODEL = Returns tt ->
     w_OllamaEmbeddings w' EMBEDDING_MODEL = Returns tt ->
     w_FAISS_load_local w VECTOR_DB_PATH = Raises e ->
     w_FAISS_load_local w' VECTOR_DB_PATH = Raises e' ->
     load_knowledge_base w = load_knowledge_base w' /\
     forall ui, app w None ui = app w' None ui).
Proof.
  split; [|split].
  - rewrite load_knowledge_base_cases.
    destruct (w_OllamaEmbeddings w EMBEDDING_MODEL); [|now eexists].
    destruct (w_FAISS_load_local w VECTOR_DB_PATH); now eexists.
  - intros e [H | H]; rewrite load_knowledge_base_cases, H; [reflexivity|].
    destruct (w_OllamaEmbeddings w EMBEDDING_MODEL); reflexivity.
  - intros w' e e' Ho Ho' Hl Hl'.
    assert (Heq : load_knowledge_base w = load_knowledge_base w')
      by (rewrite !load_knowledge_base_cases, Ho, Ho', Hl, Hl'; reflexivity).
    split; [exact Heq|].
    intros ui. unfold app, load_knowledge_base_cached. rewrite <- Heq.
    rewrite load_knowledge_base_cases, Ho, Hl. reflexivity.
Qed.

Lemma C10_load_knowledge_base_never_raises_witness :
  result_of (load_knowledge_base Examples.w_no_index) = Ok None /\
  result_of (load_knowledge_base Examples.w_dimension_mismatch) = Ok None /\
  load_knowledge_base Examples.w_no_index
  = load_knowledge_base Examples.w_dimension_mismatch /\
  app Examples.w_no_index None Examples.ui_all
  = app Examples.w_dimension_mismatch None Examples.ui_all.
Proof.
  destruct (C10_load_knowledge_base_never_raises Examples.w_no_index)
    as (_ & Hnone & Hsame).
  destruct (C10_load_knowledge_base_never_raises Examples.w_dimension_mismatch)
    as (_ & Hnone' & _).
  destruct (Hsame Examples.w_dimension_mismatch Examples.index_missing
                  Examples.dimension_mismatch eq_refl eq_refl eq_refl eq_refl)
    as [Hload Happ].
  split; [apply (Hnone Examples.index_missing); right; reflexivity|].
  split; [apply (Hnone' Examples.dimension_mismatch); right; reflexivity|].
  split; [exact Hload | apply Happ].
Defined.

(** ** Input guards *)

Lemma tab1_on_empty_text (w : World) kb ui :
  text_input ui = [] ->
  tab1 w kb ui
  = if button_run_text_audit ui
    then ([st_warning (lit "Please enter text.")], Ok tt) else ([], Ok tt).
Proof.
  intros Ht. unfold tab1. rewrite Ht.
  destruct (button_run_text_audit ui); reflexivity.
Qed.

Lemma tab2_without_file (w : World) kb ui :
  uploaded_pdf ui = None -> tab2 w kb ui = ([], Ok tt).
Proof. intros Hp. unfold tab2. now rewrite Hp. Qed.

Lemma tab3_without_file (w : World) kb ui :
  uploaded_img ui = None -> tab3 w kb ui = ([st_write msg_tab3_intro], Ok tt).
Proof. intros Hi. unfold tab3. now rewrite Hi. Qed.

Lemma load_knowledge_base_cached_does_no_audit_work (w : World) c :
  existsb audit_work (trace_of (fst (load_knowledge_base_cached w c))) = false.
Proof.
  destruct c as [v|]; cbn [load_knowledge_base_cached fst]; [reflexivity|].
  apply load_knowledge_base_does_no_audit_work.
Qed.

(** C7.  With an empty text, tab 1 does nothing beyond the warning "Please
    enter text." (shown when its button is pressed); with no PDF uploaded,
    tab 2 does nothing; with no image uploaded, tab 3 only shows its
    introduction.  A whole run of the script on such input embeds nothing,
    searches no index, calls no judge and shows no verdict of an audit. *)
Theorem C7_missing_input_does_no_audit_work (w : World) (kb : index) (ui : UI) :
  (text_input ui = [] ->
   trace_of (tab1 w kb ui)
   = (if button_run_text_audit ui then [st_warning (lit "Please enter text.")] else [])
   /\ result_of (tab1 w kb ui) = Ok tt) /\
  (uploaded_pdf ui = None ->
   trace_of (tab2 w kb ui) = [] /\ result_of (tab2 w kb ui) = Ok tt) /\
  (uploaded_img ui = None ->
   trace_of (tab3 w kb ui) = [st_write msg_tab3_intro]
   /\ result_of (tab3 w kb ui) = Ok tt) /\
  (text_input ui = [] -> uploaded_pdf ui = None -> uploaded_img ui = None ->
   forall c,
     existsb audit_work (trace_of (fst (app w c ui))) = false /\
     verdicts_shown (trace_of (tab1 w kb ui) ++ trace_of (tab2 w kb ui)
                       ++ trace_of (tab3 w kb ui)) = []).
Proof.
  split; [|split; [|split]].
  - intros Ht. rewrite (tab1_on_empty_text w kb ui Ht).
    destruct (button_run_text_audit ui); split; reflexivity.
  - intros Hp. rewrite (tab2_without_file w kb ui Hp). split; reflexivity.
  - intros Hi. rewrite (tab3_without_file w kb ui Hi). split; reflexivity.
  - intros Ht Hp Hi c. split.
    + pose proof (load_knowledge_base_cached_does_no_audit_work w c) as Hl.
      unfold app. destruct (load_knowledge_base_cached w c) as [loaded c'].
      cbn [fst] in *.
      destruct loaded as [t [[kb'|]|e|]]; cbn [trace_of fst] in Hl.
      * repeat (rewrite trace_of_bind; cbn [emit result_of snd trace_of fst]).
        rewrite (tab1_on_empty_text w kb' ui Ht), (tab2_without_file w kb' ui Hp),
          (tab3_without_file w kb' ui Hi).
        destruct (button_run_text_audit ui); cbn [result_of snd trace_of fst];
          rewrite !existsb_app, Hl; reflexivity.
      * repeat (rewrite trace_of_bind; cbn [emit st_stop result_of snd trace_of fst]).
        rewrite !existsb_app, Hl. reflexivity.
      * repeat (rewrite trace_of_bind; cbn [emit result_of snd trace_of fst]).
        rewrite !existsb_app, Hl. reflexivity.
      * repeat (rewrite trace_of_bind; cbn [emit result_of snd trace_of fst]).
        rewrite !existsb_app, Hl. reflexivity.
    + rewrite (tab1_on_empty_text w kb ui Ht), (tab2_without_file w kb ui Hp),
        (tab3_without_file w kb ui Hi).
      destruct (button_run_text_audit ui); reflexivity.
Qed.

Lemma C7_missing_input_does_no_audit_work_witness :
  trace_of (tab1 Examples.w_fail Examples.kb2 Examples.ui_empty)
  = [st_warning (lit "Please enter text.")] /\
  trace_of (tab2 Examples.w_fail Examples.kb2 Examples.ui_empty) = [] /\
  trace_of (tab3 Examples.w_fail Examples.kb2 Examples.ui_empty)
  = [st_write msg_tab3_intro] /\
  existsb audit_work (trace_of (fst (app Examples.w_fail None Examples.ui_empty)))
  = false.
Proof.
  destruct (C7_missing_input_does_no_audit_work
              Examples.w_fail Examples.kb2 Examples.ui_empty)
    as (H1 & H2 & H3 & H4).
  split; [apply (H1 eq_refl)|].
  split; [apply (H2 eq_refl)|].
  split; [apply (H3 eq_refl)|].
  apply (H4 eq_refl eq_refl eq_refl None).
Defined.

(** ** The content normalizers *)

(** C8.  [analyze_image] returns a string on every outcome of the vision
    call, never an exception: the description when the call returns, and
    when it raises [e] the message "Error using Vision model: " + str(e) +
    ". (Did you run 'ollama pull llava'?)".  That message is an ordinary
    [str]: a world whose vision model answers with the same text yields the
    very same result. *)
Theorem C8_analyze_image_total (w : World) (image_bytes : bytes) :
  (exists s, result_of (analyze_image w image_bytes) = Ok s) /\
  (forall description,
     w_ollama_chat w VISION_MODEL (vision_messages image_bytes) = Returns description ->
     result_of (analyze_image w image_bytes) = Ok description) /\
  (forall e,
     w_ollama_chat w VISION_MODEL (vision_messages image_bytes) = Raises e ->
     result_of (analyze_image w image_bytes) = Ok (vision_error_message e) /\
     startswith (vision_error_message e) (lit "Error using Vision model:") = true /\
     forall w',
       w_ollama_chat w' VISION_MODEL (vision_messages image_bytes)
       = Returns (vision_error_message e) ->
       analyze_image w' image_bytes = analyze_image w image_bytes).
Proof.
  split; [|split].
  - rewrite analyze_image_returns. now eexists.
  - intros description H. now rewrite analyze_image_returns, H.
  - intros e H. split; [|split].
    + now rewrite analyze_image_returns, H.
    + reflexivity.
    + intros w' H'. now rewrite !analyze_image_returns, H, H'.
Qed.

Lemma C8_analyze_image_total_witness :
  result_of (analyze_image Examples.w_vision_down (getvalue Examples.a_file))
  = Ok (vision_error_message Examples.connection_refused) /\
  result_of (analyze_image Examples.w_pass (getvalue Examples.a_file))
  = Ok Examples.description.
Proof.
  destruct (C8_analyze_image_total Examples.w_vision_down (getvalue Examples.a_file))
    as (_ & _ & Hdown).
  destruct (C8_analyze_image_total Examples.w_pass (getvalue Examples.a_file))
    as (_ & Hup & _).
  split.
  - apply (Hdown Examples.connection_refused). reflexivity.
  - apply (Hup Examples.description). reflexivity.
Defined.

(** The page loop over pages that all extract to strings, followed by
    further pages. *)
Lemma extract_pages_prefix (before : list PageObject) :
  forall (texts : list str) (rest : list PageObject) (n : nat) (text : str),
    map extract_text before = map (fun s => Returns (Str s)) texts ->
    extract_pages (before ++ rest) n text
    = (map page_extract_text (seq n (List.length before))
         ++ trace_of (extract_pages rest (n + List.length before) (text ++ List.concat texts)),
       result_of (extract_pages rest (n + List.length before) (text ++ List.concat texts))).
Proof.
  induction before as [|page before IH]; intros texts rest n text Hmap.
  - destruct texts; [|discriminate]. simpl.
    rewrite Nat.add_0_r, app_nil_r.
    destruct (extract_pages rest n text); reflexivity.
  - destruct texts as [|s texts]; [discriminate|].
    cbn [map] in Hmap. injection Hmap as Hpage Hmap.
    change ((page :: before) ++ rest) with (page :: (before ++ rest)).
    cbn [extract_pages]. rewrite Hpage. cbn [call].
    rewrite bind_Ok. cbn [str_iadd]. rewrite bind_ret.
    rewrite (IH texts rest (S n) (text ++ s) Hmap).
    cbn [trace_of fst result_of snd List.length seq map List.concat].
    rewrite Nat.add_succ_r, <- app_assoc. reflexivity.
Qed.

Lemma extract_pages_all_str (pages : list PageObject) (texts : list str) n text :
  map extract_text pages = map (fun s => Returns (Str s)) texts ->
  extract_pages pages n text
  = (map page_extract_text (seq n (List.length pages)), Ok (text ++ List.concat texts)).
Proof.
  intros Hmap. rewrite <- (app_nil_r pages) at 1.
  rewrite (extract_pages_prefix pages texts [] n text Hmap).
  cbn [extract_pages ret trace_of fst result_of snd]. now rewrite app_nil_r.
Qed.

(** PDF extraction displays nothing and does no audit work. *)
Lemma extract_pages_quiet (pages : list PageObject) :
  forall n text,
    displayed (trace_of (extract_pages pages n text)) = [] /\
    existsb audit_work (trace_of (extract_pages pages n text)) = false.
Proof.
  induction pages as [|p pages IH]; intros n text; [split; reflexivity|].
  cbn [extract_pages].
  destruct (extract_text p) as [[s|]|e]; cbn [call]; [|split; reflexivity..].
  rewrite bind_Ok. cbn [str_iadd]. rewrite bind_ret.
  cbn [trace_of fst]. apply (IH (S n) (text ++ s)).
Qed.

Lemma extract_text_from_pdf_quiet (w : World) (file : UploadedFile) :
  displayed (trace_of (extract_text_from_pdf w file)) = [] /\
  existsb audit_work (trace_of (extract_text_from_pdf w file)) = false.
Proof.
  unfold extract_text_from_pdf.
  destruct (w_PdfReader w file) as [pages|e]; cbn [call]; [|split; reflexivity].
  rewrite bind_Ok. cbn [trace_of fst]. apply (extract_pages_quiet pages 0 []).
Qed.

(** C9.  [extract_text_from_pdf] handles no error.  An exception raised by
    [PyPDF2.PdfReader] leaves the function as that exception; so does one
    raised by a page's [extract_text]; and when a page extracts to [None]
    after pages that extracted to strings, [text += None] raises a
    [TypeError].  In tab 2 the exception propagates out of the tab: nothing
    is displayed and no audit runs. *)
Theorem C9_extract_text_from_pdf_partial (w : World) (file : UploadedFile) :
  (forall e,
     w_PdfReader w file = Raises e ->
     result_of (extract_text_from_pdf w file) = Raise e) /\
  (forall pages before page after texts,
     w_PdfReader w file = Returns pages ->
     pages = before ++ page :: after ->
     map extract_text before = map (fun s => Returns (Str s)) texts ->
     (extract_text page = Returns None_ ->
      result_of (extract_text_from_pdf w file) = Raise TypeError_concat_None) /\
     (forall e, extract_text page = Raises e ->
                result_of (extract_text_from_pdf w file) = Raise e)) /\
  (forall kb ui e,
     uploaded_pdf ui = Some file ->
     button_audit_pdf ui = true ->
     result_of (extract_text_from_pdf w file) = Raise e ->
     result_of (tab2 w kb ui) = Raise e /\
     trace_of (tab2 w kb ui) = trace_of (extract_text_from_pdf w file) /\
     displayed (trace_of (tab2 w kb ui)) = [] /\
     existsb audit_work (trace_of (tab2 w kb ui)) = false).
Proof.
  split; [|split].
  - intros e H. unfold extract_text_from_pdf. now rewrite H.
  - intros pages before page after texts Hr -> Hmap.
    unfold extract_text_from_pdf. rewrite Hr. cbn [call]. rewrite bind_Ok.
    rewrite (extract_pages_prefix before texts (page :: after) 0 [] Hmap).
    cbn [trace_of fst result_of snd extract_pages].
    split; [intros Hp | intros e Hp]; rewrite Hp; reflexivity.
  - intros kb ui e Hu Hb He.
    assert (Ht : tab2 w kb ui = (trace_of (extract_text_from_pdf w file), Raise e)).
    { unfold tab2. rewrite Hu, Hb. now apply bind_result_Raise. }
    rewrite Ht. cbn [trace_of fst result_of snd].
    split; [reflexivity|split; [reflexivity|]].
    apply extract_text_from_pdf_quiet.
Qed.

Lemma C9_extract_text_from_pdf_partial_witness :
  result_of (extract_text_from_pdf Examples.w_pdf_None Examples.a_file)
  = Raise TypeError_concat_None /\
  result_of (tab2 Examples.w_pdf_None Examples.kb2 Examples.ui_pdf)
  = Raise TypeError_concat_None /\
  result_of (extract_text_from_pdf Examples.w_pdf_broken Examples.a_file)
  = Raise (Exn "PdfReadError" (lit "EOF marker not found")).
Proof.
  destruct (C9_extract_text_from_pdf_partial Examples.w_pdf_None Examples.a_file)
    as (_ & Hpage & Htab).
  destruct (C9_extract_text_from_pdf_partial Examples.w_pdf_broken Examples.a_file)
    as (Hreader & _ & _).
  assert (H : result_of (extract_text_from_pdf Examples.w_pdf_None Examples.a_file)
              = Raise TypeError_concat_None).
  { apply (proj1 (Hpage Examples.pages_with_None
                        [mkPage (Returns (Str Examples.page_two))]
                        (mkPage (Returns None_))
                        [mkPage (Returns (Str []))]
                        [Examples.page_two] eq_refl eq_refl eq_refl)).
    reflexivity. }
  split; [exact H|]. split.
  - apply (Htab Examples.kb2 Examples.ui_pdf TypeError_concat_None eq_refl eq_refl H).
  - apply Hreader. reflexivity.
Defined.

(** What tab 2 logs once the PDF is uploaded, the button pressed and the
    text extracted. *)
Lemma tab2_trace (w : World) kb ui pdf pdf_text :
  uploaded_pdf ui = Some pdf ->
  button_audit_pdf ui = true ->
  result_of (extract_text_from_pdf w pdf) = Ok pdf_text ->
  trace_of (tab2 w kb ui)
  = trace_of (extract_text_from_pdf w pdf)
    ++ st_info (lit "Extracted " ++ of_nat (len pdf_text) ++ lit " characters from PDF.")
    :: trace_of (run_audit w kb pdf_text (lit "PDF Content"))
    ++ match result_of (run_audit w kb pdf_text (lit "PDF Content")) with
       | Ok (result, _) =>
           [if contains FAIL_token result then st_error result
            else st_success result]
       | _ => []
       end.
Proof.
  intros Hu Hb He. unfold tab2. rewrite Hu, Hb.
  rewrite trace_of_bind, He, trace_of_bind.
  cbn [emit result_of snd trace_of fst]. rewrite trace_of_bind.
  destruct (result_of (run_audit w kb pdf_text (lit "PDF Content")))
    as [[result context]| |]; [|reflexivity..].
  destruct (contains FAIL_token result); reflexivity.
Qed.

(** C5.  When the PDF parses and its pages extract to the strings [texts],
    the text returned by [extract_text_from_pdf] is their concatenation in
    page order, every page being read once and in order; a page extracting
    to the empty string is no error and adds nothing; and the count tab 2
    reports in "Extracted ... characters from PDF." is the length of that
    text, which is also the content handed to [run_audit]. *)
Theorem C5_pdf_text_is_page_concatenation
        (w : World) (kb : index) (ui : UI) (pdf : UploadedFile)
        (pages : list PageObject) (texts : list str) :
  uploaded_pdf ui = Some pdf ->
  button_audit_pdf ui = true ->
  w_PdfReader w pdf = Returns pages ->
  map extract_text pages = map (fun s => Returns (Str s)) texts ->
  extract_text_from_pdf w pdf
  = (PdfReader pdf :: map page_extract_text (seq 0 (List.length pages)),
     Ok (List.concat texts)) /\
  (forall before after,
     texts = before ++ [] :: after ->
     List.concat texts = List.concat (before ++ after)) /\
  trace_of (tab2 w kb ui)
  = trace_of (extract_text_from_pdf w pdf)
    ++ st_info (lit "Extracted " ++ of_nat (List.length (List.concat texts))
                  ++ lit " characters from PDF.")
    :: trace_of (run_audit w kb (List.concat texts) (lit "PDF Content"))
    ++ match result_of (run_audit w kb (List.concat texts) (lit "PDF Content")) with
       | Ok (result, _) =>
           [if contains FAIL_token result then st_error result
            else st_success result]
       | _ => []
       end.
Proof.
  intros Hu Hb Hr Hmap.
  assert (He : extract_text_from_pdf w pdf
               = (PdfReader pdf :: map page_extract_text (seq 0 (List.length pages)),
                  Ok (List.concat texts))).
  { unfold extract_text_from_pdf. rewrite Hr. cbn [call]. rewrite bind_Ok.
    rewrite (extract_pages_all_str pages texts 0 [] Hmap). reflexivity. }
  split; [exact He|split].
  - intros before after ->. rewrite !concat_app. reflexivity.
  - apply (tab2_trace w kb ui pdf (List.concat texts) Hu Hb).
    now rewrite He.
Qed.

Lemma C5_pdf_text_is_page_concatenation_witness :
  result_of (extract_text_from_pdf Examples.w_pass Examples.a_file)
  = Ok Examples.page_two /\
  In (st_info (lit "Extracted 19 characters from PDF."))
     (trace_of (tab2 Examples.w_pass Examples.kb2 Examples.ui_pdf)).
Proof.
  destruct (C5_pdf_text_is_page_concatenation
              Examples.w_pass Examples.kb2 Examples.ui_pdf Examples.a_file
              Examples.three_pages [[]; Examples.page_two; []]
              eq_refl eq_refl eq_refl eq_refl) as (He & _ & Ht).
  split.
  - rewrite He. reflexivity.
  - rewrite Ht. apply in_or_app. right. left. reflexivity.
Defined.

(** ** Retrieval *)










(** When every entry scores the same, the hits are the first [k] entries of
    the index, in index order. *)
Lemma search_all_tied (similarity : vec -> vec -> Z) (idx : index) (q : vec) (k : nat)
      (s : Z) :
  Forall (fun e => similarity q (embedding e) = s) idx ->
  VectorIndex.search similarity idx q k
  = firstn k (VectorIndex.scored similarity q idx).
Proof.
  intros Hall. unfold VectorIndex.search, VectorIndex.scored. f_equal.
  induction Hall as [|e idx He Hall IH]; [reflexivity|].
  cbn [map VectorIndex.rank_scored]. rewrite IH.
  destruct Hall as [|e' idx' He' Hall']; [reflexivity|].
  cbn [map VectorIndex.insert_ranked fst]. rewrite He, He', Z.ltb_irrefl.
  reflexivity.
Qed.

Lemma run_audit_cases (w : World) kb content_to_audit label :
  run_audit w kb content_to_audit label
  = match w_embed_query w content_to_audit with
    | Raises e =>
        ([st_spinner (lit "Auditing " ++ label ++ lit "...");
          embed_query content_to_audit], Raise e)
    | Returns v =>
        let rules_text :=
          join (nl ++ nl) (hit_texts (VectorIndex.search (w_similarity w) kb v 3)) in
        let messages := judge_messages rules_text content_to_audit in
        ([st_spinner (lit "Auditing " ++ label ++ lit "...");
          embed_query content_to_audit; index_search 3;
          ollama_chat TEXT_MODEL messages],
         match w_ollama_chat w TEXT_MODEL messages with
         | Returns response => Ok (response, rules_text)
         | Raises e => Raise e
         end)
    end.
Proof.
  unfold run_audit, similarity_search, hit_texts.
  destruct (w_embed_query w content_to_audit) as [v|e]; [|reflexivity].
  cbv zeta. rewrite <- (map_map (fun hit : Z * entry => chunk (snd hit)) page_content).
  unfold bind, emit, call, ret. cbn beta iota.
  destruct (w_ollama_chat w TEXT_MODEL _) as [response|e]; reflexivity.
Qed.





(** ** Chunking *)

Lemma candidates_range (chunk_size overlap c : nat) :
  overlap < chunk_size ->
  In c (Chunker.candidates chunk_size overlap) ->
  overlap < c <= chunk_size.
Proof.
  intros Hlt Hin. unfold Chunker.candidates in Hin.
  apply in_rev in Hin. apply in_seq in Hin. lia.
Qed.

Lemma cut_point_range (rest : str) (chunk_size overlap : nat) :
  overlap < chunk_size ->
  overlap < Chunker.cut_point rest chunk_size overlap <= chunk_size.
Proof.
  intros Hlt. unfold Chunker.cut_point.
  destruct (find (Chunker.paragraph_boundary rest) _) as [c|] eqn:Ep.
  - apply find_some in Ep. now apply candidates_range.
  - destruct (find (Chunker.sentence_boundary rest) _) as [c|] eqn:Es.
    + apply find_some in Es. now apply candidates_range.
    + lia.
Qed.

(** No chunk of the model is longer than [chunk_size]. *)
Lemma split_from_bounded (chunk_size overlap : nat) (src : string) :
  overlap < chunk_size ->
  forall fuel seq_idx start rest,
    Forall (fun c => List.length (Chunker.text c) <= chunk_size)
           (Chunker.split_from fuel src seq_idx start rest chunk_size overlap).
Proof.
  intros Hlt. induction fuel as [|fuel IH]; intros seq_idx start rest.
  - constructor.
  - cbn [Chunker.split_from].
    destruct (List.length rest <=? chunk_size) eqn:E.
    + apply Nat.leb_le in E. constructor; [exact E | constructor].
    + constructor; [|apply IH].
      cbn [Chunker.text]. rewrite length_firstn.
      pose proof (cut_point_range rest chunk_size overlap Hlt). lia.
Qed.

Lemma split_short_document (src : string) (document_text : str)
      (chunk_size overlap : nat) :
  0 < overlap < chunk_size ->
  document_text <> [] ->
  List.length document_text <= chunk_size ->
  Chunker.split src document_text chunk_size overlap
  = Returns [Chunker.mkChunk src 0 document_text 0 (List.length document_text)].
Proof.
  intros [Ho Hc] Hne Hlen. unfold Chunker.split.
  apply Nat.ltb_lt in Ho, Hc. rewrite Ho, Hc. cbn [andb].
  destruct document_text as [|c rest]; [congruence|].
  cbn [List.length Chunker.split_from] in *.
  apply Nat.leb_le in Hlen. cbn [List.length] in Hlen. rewrite Hlen. reflexivity.
Qed.

Lemma split_empty_document (src : string) (chunk_size overlap : nat) :
  0 < overlap < chunk_size ->
  Chunker.split src [] chunk_size overlap = Returns [].
Proof.
  intros [Ho Hc]. unfold Chunker.split.
  apply Nat.ltb_lt in Ho, Hc. now rewrite Ho, Hc.
Qed.

(** C6.  With chunk_size = 500 and overlap = 50, the empty document splits
    into no chunk and raises nothing, and a non-empty document of fewer than
    500 characters splits into exactly one chunk, which is the whole
    document; [split_documents] on the loaded policy returns accordingly. *)
Theorem C6_empty_and_short_documents (src : string) (document_text : str) :
  Chunker.split src [] 500 50 = Returns [] /\
  result_of (CreateDb.split_documents [mkDocument [] src] 500 50) = Ok [] /\
  (document_text <> [] ->
   List.length document_text < 500 ->
   Chunker.split src document_text 500 50
   = Returns [Chunker.mkChunk src 0 document_text 0 (List.length document_text)] /\
   result_of (CreateDb.split_documents [mkDocument document_text src] 500 50)
   = Ok [mkDocument document_text src]).
Proof.
  assert (Hp : 0 < 50 < 500) by lia.
  pose proof (split_empty_document src 500 50 Hp) as He.
  split; [exact He|]. split.
  - cbn [CreateDb.split_documents page_content source]. rewrite He. reflexivity.
  - intros Hne Hlen.
    assert (Hs := split_short_document src document_text 500 50 Hp Hne
                    (Nat.lt_le_incl _ _ Hlen)).
    split; [exact Hs|].
    cbn [CreateDb.split_documents page_content source]. rewrite Hs. reflexivity.
Qed.

Lemma C6_empty_and_short_documents_witness :
  Chunker.split Examples.policy_source Examples.rule1 500 50
  = Returns [Chunker.mkChunk Examples.policy_source 0 Examples.rule1 0 40].
Proof.
  destruct (C6_empty_and_short_documents Examples.policy_source Examples.rule1)
    as (_ & _ & Hshort).
  apply Hshort.
  - discriminate.
  - apply Nat.ltb_lt. reflexivity.
Defined.


(** * Further properties of the scripts *)

(** ** The outcomes of [run_audit] *)

Lemma run_audit_Ok_inv (w : World) kb content label response context :
  result_of (run_audit w kb content label) = Ok (response, context) ->
  exists v,
    w_embed_query w content = Returns v /\
    context = join (nl ++ nl) (hit_texts (VectorIndex.search (w_similarity w) kb v 3)) /\
    w_ollama_chat w TEXT_MODEL (judge_messages context content) = Returns response /\
    In (ollama_chat TEXT_MODEL (judge_messages context content))
       (trace_of (run_audit w kb content label)).
Proof.
  rewrite run_audit_cases.
  destruct (w_embed_query w content) as [v|e]; [|discriminate].
  cbv zeta. cbn [result_of snd trace_of fst].
  destruct (w_ollama_chat w TEXT_MODEL _) as [r|e] eqn:E; [|discriminate].
  intros H. injection H as <- <-. exists v.
  repeat split; [exact E|]. cbn [In]. tauto.
Qed.

Lemma run_audit_never_halts (w : World) kb content label :
  result_of (run_audit w kb content label) <> Halt.
Proof.
  rewrite run_audit_cases.
  destruct (w_embed_query w content) as [v|e]; [|discriminate].
  cbv zeta. cbn [result_of snd].
  destruct (w_ollama_chat w TEXT_MODEL _); discriminate.
Qed.

(** X1.  [run_audit] catches nothing and retries nothing.  If the embedder
    raises, [run_audit] raises the same exception having searched no index
    and called no judge.  If the embedder returns and the judge raises,
    [run_audit] raises the judge's exception after that one call.  It
    returns only when both returned, and then with the judge's response. *)
Theorem X1_run_audit_propagates_service_failures
        (w : World) (kb : index) (content label : str) :
  (forall e,
     w_embed_query w content = Raises e ->
     run_audit w kb content label
     = ([st_spinner (lit "Auditing " ++ label ++ lit "..."); embed_query content],
        Raise e)) /\
  (forall v e,
     w_embed_query w content = Returns v ->
     let rules_text :=
       join (nl ++ nl) (hit_texts (VectorIndex.search (w_similarity w) kb v 3)) in
     w_ollama_chat w TEXT_MODEL (judge_messages rules_text content) = Raises e ->
     run_audit w kb content label
     = ([st_spinner (lit "Auditing " ++ label ++ lit "..."); embed_query content;
         index_search 3; ollama_chat TEXT_MODEL (judge_messages rules_text content)],
        Raise e)) /\
  (forall response context,
     result_of (run_audit w kb content label) = Ok (response, context) ->
     exists v,
       w_embed_query w content = Returns v /\
       w_ollama_chat w TEXT_MODEL (judge_messages context content) = Returns response) /\
  List.length (filter judging (trace_of (run_audit w kb content label))) <= 1.
Proof.
  split; [|split; [|split]].
  - intros e He. now rewrite run_audit_cases, He.
  - intros v e Hv rules_text Hj. subst rules_text.
    rewrite run_audit_cases, Hv. cbv zeta. now rewrite Hj.
  - intros response context Hr.
    destruct (run_audit_Ok_inv w kb content label response context Hr)
      as (v & Hv & _ & Hj & _).
    exists v. split; assumption.
  - rewrite run_audit_cases.
    destruct (w_embed_query w content) as [v|e]; cbv zeta; cbn; lia.
Qed.

Lemma X1_run_audit_propagates_service_failures_witness :
  result_of (run_audit MoreExamples.w_embedder_down Examples.kb2
                       Examples.page_two (lit "Content"))
  = Raise MoreExamples.timeout /\
  result_of (run_audit MoreExamples.w_judge_down Examples.kb2
                       Examples.page_two (lit "Content"))
  = Raise MoreExamples.timeout.
Proof.
  destruct (X1_run_audit_propagates_service_failures
              MoreExamples.w_embedder_down Examples.kb2 Examples.page_two (lit "Content"))
    as (He & _).
  destruct (X1_run_audit_propagates_service_failures
              MoreExamples.w_judge_down Examples.kb2 Examples.page_two (lit "Content"))
    as (_ & Hj & _).
  split.
  - rewrite (He MoreExamples.timeout eq_refl). reflexivity.
  - rewrite (Hj [2; 1]%Z MoreExamples.timeout eq_refl eq_refl). reflexivity.
Defined.

(** ** The tabs, case by case *)

Lemma tab1_cases (w : World) kb ui :
  tab1 w kb ui
  = if button_run_text_audit ui then
      if truthy (text_input ui) then
        let ra := run_audit w kb (text_input ui) (audit_mode_label (audit_mode ui)) in
        (trace_of ra
           ++ match result_of ra with
              | Ok (result, context) => [verdict_event result; st_write context]
              | _ => []
              end,
         after_audit (result_of ra))
      else ([st_warning (lit "Please enter text.")], Ok tt)
    else ([], Ok tt).
Proof.
  unfold tab1, verdict_event.
  destruct (button_run_text_audit ui); [|reflexivity].
  destruct (truthy (text_input ui)); [|reflexivity]. cbv zeta.
  destruct (run_audit w kb (text_input ui) (audit_mode_label (audit_mode ui)))
    as [t [[result context]|e|]]; cbn [bind trace_of fst result_of snd after_audit];
    rewrite ?app_nil_r; try reflexivity.
  destruct (contains FAIL_token result); reflexivity.
Qed.

Lemma tab2_cases (w : World) kb ui :
  tab2 w kb ui
  = match uploaded_pdf ui with
    | Some pdf =>
        if button_audit_pdf ui then
          let ex := extract_text_from_pdf w pdf in
          match result_of ex with
          | Ok pdf_text =>
              let ra := run_audit w kb pdf_text (lit "PDF Content") in
              (trace_of ex
                 ++ st_info (lit "Extracted " ++ of_nat (len pdf_text)
                               ++ lit " characters from PDF.")
                 :: trace_of ra
                 ++ match result_of ra with
                    | Ok (result, _) => [verdict_event result]
                    | _ => []
                    end,
               after_audit (result_of ra))
          | Raise e => (trace_of ex, Raise e)
          | Halt => (trace_of ex, Halt)
          end
        else ([], Ok tt)
    | None => ([], Ok tt)
    end.
Proof.
  unfold tab2, verdict_event.
  destruct (uploaded_pdf ui) as [pdf|]; [|reflexivity].
  destruct (button_audit_pdf ui); [|reflexivity]. cbv zeta.
  destruct (extract_text_from_pdf w pdf) as [t [pdf_text|e|]];
    cbn [trace_of fst result_of snd]; [|reflexivity..].
  rewrite bind_Ok. unfold emit at 1. rewrite bind_Ok.
  cbn [trace_of fst result_of snd].
  destruct (run_audit w kb pdf_text (lit "PDF Content"))
    as [t' [[result context]|e|]]; cbn [bind trace_of fst result_of snd after_audit];
    rewrite ?app_nil_r; try reflexivity.
  destruct (contains FAIL_token result); reflexivity.
Qed.

Lemma tab3_cases (w : World) kb ui :
  tab3 w kb ui
  = match uploaded_img ui with
    | Some img =>
        if button_audit_image ui then
          let visual_description := described w (getvalue img) in
          let ra := run_audit w kb visual_description (lit "Image Description") in
          ([st_write msg_tab3_intro;
            st_spinner ([128064%N] ++ lit " Vision Model analyzing image content...");
            ollama_chat VISION_MODEL (vision_messages (getvalue img));
            st_text_area_show (lit "Vision Model Description:") visual_description]
             ++ trace_of ra
             ++ match result_of ra with
                | Ok (result, _) => [verdict_event result]
                | _ => []
                end,
           after_audit (result_of ra))
        else ([st_write msg_tab3_intro], Ok tt)
    | None => ([st_write msg_tab3_intro], Ok tt)
    end.
Proof.
  unfold tab3, verdict_event, described.
  destruct (uploaded_img ui) as [img|]; [|reflexivity].
  destruct (button_audit_image ui); [|reflexivity]. cbv zeta.
  rewrite analyze_image_returns.
  unfold emit. rewrite !bind_Ok. cbn [trace_of fst result_of snd].
  rewrite ?bind_Ok. cbn [trace_of fst result_of snd].
  destruct (run_audit w kb _ (lit "Image Description"))
    as [t' [[result context]|e|]]; cbn [bind trace_of fst result_of snd after_audit];
    rewrite ?app_nil_r; try reflexivity.
  destruct (contains FAIL_token result); reflexivity.
Qed.

Lemma verdicts_shown_verdict_event (result : str) (t : trace) :
  verdicts_shown (verdict_event result :: t)
  = (if contains FAIL_token result then FAIL else PASS, result) :: verdicts_shown t.
Proof. unfold verdict_event. destruct (contains FAIL_token result); reflexivity. Qed.

Lemma tab1_verdicts (w : World) kb ui :
  verdicts_shown (trace_of (tab1 w kb ui))
  = if button_run_text_audit ui && truthy (text_input ui) then
      match result_of (run_audit w kb (text_input ui)
                                 (audit_mode_label (audit_mode ui))) with
      | Ok (result, _) => [(if contains FAIL_token result then FAIL else PASS, result)]
      | _ => []
      end
    else [].
Proof.
  rewrite tab1_cases.
  destruct (button_run_text_audit ui); [|reflexivity].
  destruct (truthy (text_input ui)); [|reflexivity].
  cbv zeta. cbn [andb trace_of fst].
  rewrite verdicts_shown_app, run_audit_shows_no_verdict.
  destruct (result_of (run_audit w kb (text_input ui) _)) as [[result context]|e|];
    [|reflexivity..].
  cbn [app]. now rewrite verdicts_shown_verdict_event.
Qed.

Lemma tab2_verdicts (w : World) kb ui :
  verdicts_shown (trace_of (tab2 w kb ui))
  = match uploaded_pdf ui with
    | Some pdf =>
        if button_audit_pdf ui then
          match result_of (extract_text_from_pdf w pdf) with
          | Ok pdf_text =>
              match result_of (run_audit w kb pdf_text (lit "PDF Content")) with
              | Ok (result, _) =>
                  [(if contains FAIL_token result then FAIL else PASS, result)]
              | _ => []
              end
          | _ => []
          end
        else []
    | None => []
    end.
Proof.
  rewrite tab2_cases.
  destruct (uploaded_pdf ui) as [pdf|]; [|reflexivity].
  destruct (button_audit_pdf ui); [|reflexivity]. cbv zeta.
  pose proof (extract_text_from_pdf_shows_no_verdict w pdf) as Hex.
  destruct (result_of (extract_text_from_pdf w pdf)) as [pdf_text|e|];
    cbn [trace_of fst]; [|exact Hex..].
  rewrite verdicts_shown_app, Hex. cbn [app verdicts_shown verdict_of_event].
  rewrite verdicts_shown_app, run_audit_shows_no_verdict.
  destruct (result_of (run_audit w kb pdf_text _)) as [[result context]|e|];
    [|reflexivity..].
  cbn [app]. now rewrite verdicts_shown_verdict_event.
Qed.

Lemma tab3_verdicts (w : World) kb ui :
  verdicts_shown (trace_of (tab3 w kb ui))
  = match uploaded_img ui with
    | Some img =>
        if button_audit_image ui then
          match result_of (run_audit w kb (described w (getvalue img))
                                     (lit "Image Description")) with
          | Ok (result, _) =>
              [(if contains FAIL_token result then FAIL else PASS, result)]
          | _ => []
          end
        else []
    | None => []
    end.
Proof.
  rewrite tab3_cases.
  destruct (uploaded_img ui) as [img|]; [|reflexivity].
  destruct (button_audit_image ui); [|reflexivity]. cbv zeta.
  unfold trace_of at 1. cbn [fst].
  rewrite verdicts_shown_app. cbn [verdicts_shown verdict_of_event app].
  rewrite verdicts_shown_app, run_audit_shows_no_verdict.
  destruct (result_of (run_audit w kb (described w (getvalue img)) _))
    as [[result context]|e|]; [|reflexivity..].
  cbn [app]. now rewrite verdicts_shown_verdict_event.
Qed.

(** X2.  When [run_audit] raises inside a tab, be it for the embedder or
    for the judge, the tab ends with that exception and shows no verdict,
    neither PASS nor FAIL; tab 1 then logs nothing beyond what [run_audit]
    logged, so the retrieved rules are not shown either. *)
Theorem X2_failed_audit_shows_no_verdict (w : World) (kb : index) (ui : UI) (e : exn) :
  (button_run_text_audit ui = true ->
   truthy (text_input ui) = true ->
   result_of (run_audit w kb (text_input ui) (audit_mode_label (audit_mode ui)))
   = Raise e ->
   result_of (tab1 w kb ui) = Raise e /\
   verdicts_shown (trace_of (tab1 w kb ui)) = [] /\
   trace_of (tab1 w kb ui)
   = trace_of (run_audit w kb (text_input ui) (audit_mode_label (audit_mode ui)))) /\
  (forall pdf pdf_text,
     uploaded_pdf ui = Some pdf ->
     button_audit_pdf ui = true ->
     result_of (extract_text_from_pdf w pdf) = Ok pdf_text ->
     result_of (run_audit w kb pdf_text (lit "PDF Content")) = Raise e ->
     result_of (tab2 w kb ui) = Raise e /\
     verdicts_shown (trace_of (tab2 w kb ui)) = []) /\
  (forall img,
     uploaded_img ui = Some img ->
     button_audit_image ui = true ->
     result_of (run_audit w kb (described w (getvalue img)) (lit "Image Description"))
     = Raise e ->
     result_of (tab3 w kb ui) = Raise e /\
     verdicts_shown (trace_of (tab3 w kb ui)) = []).
Proof.
  split; [|split].
  - intros Hb Ht Hr. rewrite tab1_verdicts, tab1_cases, Hb, Ht. cbv zeta.
    cbn [andb trace_of fst result_of snd]. rewrite Hr. cbn [after_audit].
    rewrite app_nil_r. repeat split.
  - intros pdf pdf_text Hu Hb He Hr.
    rewrite tab2_verdicts, tab2_cases, Hu, Hb. cbv zeta. rewrite He.
    cbn [result_of snd]. rewrite Hr. split; reflexivity.
  - intros img Hu Hb Hr.
    rewrite tab3_verdicts, tab3_cases, Hu, Hb. cbv zeta.
    cbn [result_of snd]. rewrite Hr. split; reflexivity.
Qed.

Lemma X2_failed_audit_shows_no_verdict_witness :
  result_of (tab1 MoreExamples.w_judge_down Examples.kb2 Examples.ui_all)
  = Raise MoreExamples.timeout /\
  verdicts_shown (trace_of (tab2 MoreExamples.w_judge_down Examples.kb2 Examples.ui_all))
  = [] /\
  verdicts_shown (trace_of (tab3 MoreExamples.w_embedder_down Examples.kb2 Examples.ui_all))
  = [].
Proof.
  destruct (X2_failed_audit_shows_no_verdict
              MoreExamples.w_judge_down Examples.kb2 Examples.ui_all MoreExamples.timeout)
    as (H1 & H2 & _).
  destruct (X2_failed_audit_shows_no_verdict
              MoreExamples.w_embedder_down Examples.kb2 Examples.ui_all MoreExamples.timeout)
    as (_ & _ & H3).
  split; [apply (H1 eq_refl eq_refl eq_refl)|].
  split.
  - apply (H2 Examples.a_file Examples.page_two eq_refl eq_refl eq_refl eq_refl).
  - apply (H3 Examples.a_file eq_refl eq_refl eq_refl).
Defined.

Lemma shown_verdict_comes_from_judge (w : World) kb content label
      (shown : list (verdict * str)) v body :
  shown = match result_of (run_audit w kb content label) with
          | Ok (result, _) =>
              [(if contains FAIL_token result then FAIL else PASS, result)]
          | _ => []
          end ->
  In (v, body) shown ->
  v = (if contains FAIL_token body then FAIL else PASS) /\
  exists messages,
    w_ollama_chat w TEXT_MODEL messages = Returns body /\
    In (ollama_chat TEXT_MODEL messages) (trace_of (run_audit w kb content label)).
Proof.
  intros -> Hin.
  destruct (result_of (run_audit w kb content label)) as [[result context]|e|] eqn:E;
    [|contradiction..].
  destruct Hin as [Heq|[]]. injection Heq as <- <-.
  split; [reflexivity|].
  destruct (run_audit_Ok_inv w kb content label result context E)
    as (q & _ & _ & Hj & Hin).
  now exists (judge_messages context content).
Qed.

(** X3.  A verdict is only ever shown for a response the judge model
    actually returned in that run: whatever the services do and whatever the
    user entered, each tab shows at most one verdict, and a verdict shown
    with text [body] means that the tab called the judge, that the call
    returned [body], and that the verdict is FAIL exactly when "FAIL"
    occurs in [body]. *)
Theorem X3_verdict_only_from_judge_response
        (w : World) (kb : index) (ui : UI) (tab : World -> index -> UI -> M unit) :
  In tab [tab1; tab2; tab3] ->
  List.length (verdicts_shown (trace_of (tab w kb ui))) <= 1 /\
  forall v body,
    In (v, body) (verdicts_shown (trace_of (tab w kb ui))) ->
    (v = FAIL <-> occurs (lit "FAIL") body) /\
    exists messages,
      w_ollama_chat w TEXT_MODEL messages = Returns body /\
      In (ollama_chat TEXT_MODEL messages) (trace_of (tab w kb ui)).
Proof.
  assert (Hiff : forall v body,
             v = (if contains FAIL_token body then FAIL else PASS) ->
             (v = FAIL <-> occurs (lit "FAIL") body)).
  { intros v body ->. fold FAIL_token. rewrite <- contains_iff.
    destruct (contains FAIL_token body); split; congruence. }
  assert (Hlen : forall (r : res (str * str)),
             List.length
               match r with
               | Ok (result, _) =>
                   [(if contains FAIL_token result then FAIL else PASS, result)]
               | _ => []
               end <= 1).
  { intros [[result context]|e|]; cbn; lia. }
  intros [<- | [<- | [<- | []]]].
  - rewrite tab1_verdicts, tab1_cases.
    destruct (button_run_text_audit ui); [|cbn; split; [lia | contradiction]].
    destruct (truthy (text_input ui)); [|cbn; split; [lia | contradiction]].
    cbv zeta. cbn [andb trace_of fst]. split; [apply Hlen|].
    intros v body Hin.
    destruct (shown_verdict_comes_from_judge w kb _ _ _ v body eq_refl Hin)
      as (Hv & messages & Hj & Hc).
    split; [now apply Hiff|]. exists messages. split; [exact Hj|].
    apply in_or_app. now left.
  - rewrite tab2_verdicts, tab2_cases.
    destruct (uploaded_pdf ui) as [pdf|]; [|cbn; split; [lia | contradiction]].
    destruct (button_audit_pdf ui); [|cbn; split; [lia | contradiction]].
    cbv zeta.
    destruct (result_of (extract_text_from_pdf w pdf)) as [pdf_text|e|];
      [|cbn; split; [lia | contradiction]..].
    cbn [trace_of fst]. split; [apply Hlen|].
    intros v body Hin.
    destruct (shown_verdict_comes_from_judge w kb _ _ _ v body eq_refl Hin)
      as (Hv & messages & Hj & Hc).
    split; [now apply Hiff|]. exists messages. split; [exact Hj|].
    apply in_or_app. right. right. apply in_or_app. now left.
  - rewrite tab3_verdicts, tab3_cases.
    destruct (uploaded_img ui) as [img|]; [|cbn; split; [lia | contradiction]].
    destruct (button_audit_image ui); [|cbn; split; [lia | contradiction]].
    cbv zeta. cbn [trace_of fst]. split; [apply Hlen|].
    intros v body Hin.
    destruct (shown_verdict_comes_from_judge w kb _ _ _ v body eq_refl Hin)
      as (Hv & messages & Hj & Hc).
    split; [now apply Hiff|]. exists messages. split; [exact Hj|].
    apply in_or_app. right. apply in_or_app. now left.
Qed.

Lemma X3_verdict_only_from_judge_response_witness :
  List.length (verdicts_shown (trace_of (tab3 Examples.w_vision_down Examples.kb2
                                              Examples.ui_image))) <= 1.
Proof.
  apply (X3_verdict_only_from_judge_response
           Examples.w_vision_down Examples.kb2 Examples.ui_image tab3).
  right. right. left. reflexivity.
Defined.

(** ** The context label *)

Lemma without_spinners_app (t1 t2 : trace) :
  without_spinners (t1 ++ t2) = without_spinners t1 ++ without_spinners t2.
Proof. apply filter_app. Qed.

Lemma run_audit_label_irrelevant (w : World) kb content label1 label2 :
  result_of (run_audit w kb content label1) = result_of (run_audit w kb content label2) /\
  without_spinners (trace_of (run_audit w kb content label1))
  = without_spinners (trace_of (run_audit w kb content label2)).
Proof.
  rewrite !run_audit_cases.
  destruct (w_embed_query w content) as [v|e]; split; reflexivity.
Qed.

Lemma filter_audit_work_tab1 (w : World) kb ui :
  filter audit_work (trace_of (tab1 w kb ui))
  = if button_run_text_audit ui && truthy (text_input ui) then
      filter audit_work
             (trace_of (run_audit w kb (text_input ui)
                                  (audit_mode_label (audit_mode ui))))
    else [].
Proof.
  rewrite tab1_cases.
  destruct (button_run_text_audit ui); [|reflexivity].
  destruct (truthy (text_input ui)); [|reflexivity].
  cbv zeta. cbn [andb trace_of fst]. rewrite filter_app.
  destruct (result_of _) as [[result context]|e|]; rewrite ?app_nil_r; try reflexivity.
  unfold verdict_event.
  destruct (contains FAIL_token result); cbn; now rewrite app_nil_r.
Qed.

Lemma filter_audit_work_without_spinners (t : trace) :
  filter audit_work (without_spinners t) = filter audit_work t.
Proof.
  unfold without_spinners. induction t as [|e t IH]; [reflexivity|].
  destruct e; cbn; rewrite ?IH; reflexivity.
Qed.

(** X4.  The context label of [run_audit] reaches nothing but the spinner
    text: the calls made, their arguments and the result are the same for any
    two labels.  So the choice between "User Prompt" and "Model Output" in
    tab 1 changes neither the calls to the embedder, the index and the judge
    (the prompt sent to the judge included), nor the verdict shown, nor how
    the tab ends. *)
Theorem X4_context_label_only_changes_spinner
        (w : World) (kb : index) (content label1 label2 : str) (ui : UI) (m : AuditMode) :
  result_of (run_audit w kb content label1) = result_of (run_audit w kb content label2) /\
  without_spinners (trace_of (run_audit w kb content label1))
  = without_spinners (trace_of (run_audit w kb content label2)) /\
  result_of (tab1 w kb (with_audit_mode m ui)) = result_of (tab1 w kb ui) /\
  filter audit_work (trace_of (tab1 w kb (with_audit_mode m ui)))
  = filter audit_work (trace_of (tab1 w kb ui)) /\
  verdicts_shown (trace_of (tab1 w kb (with_audit_mode m ui)))
  = verdicts_shown (trace_of (tab1 w kb ui)).
Proof.
  destruct (run_audit_label_irrelevant w kb content label1 label2) as [Hr Ht].
  split; [exact Hr|]. split; [exact Ht|].
  destruct (run_audit_label_irrelevant w kb (text_input ui) (audit_mode_label m)
              (audit_mode_label (audit_mode ui))) as [Hr' Ht'].
  split; [|split].
  - rewrite !tab1_cases.
    cbn [with_audit_mode button_run_text_audit text_input audit_mode].
    destruct (button_run_text_audit ui); [|reflexivity].
    destruct (truthy (text_input ui)); [|reflexivity].
    cbv zeta. cbn [result_of snd]. now rewrite Hr'.
  - rewrite !filter_audit_work_tab1.
    cbn [with_audit_mode button_run_text_audit text_input audit_mode].
    destruct (button_run_text_audit ui && truthy (text_input ui)); [|reflexivity].
    rewrite <- (filter_audit_work_without_spinners (trace_of (run_audit w kb _ (audit_mode_label m)))).
    rewrite Ht'. apply filter_audit_work_without_spinners.
  - rewrite !tab1_verdicts.
    cbn [with_audit_mode button_run_text_audit text_input audit_mode].
    now rewrite Hr'.
Qed.

(** ** The resource cache *)

Lemma existsb_bind_false {A B} (P : event -> bool) (m : M A) (k : A -> M B) :
  existsb P (trace_of m) = false ->
  (forall a, existsb P (trace_of (k a)) = false) ->
  existsb P (trace_of (bind m k)) = false.
Proof.
  intros Hm Hk. rewrite trace_of_bind, existsb_app, Hm.
  destruct (result_of m); [apply Hk|reflexivity..].
Qed.

Lemma run_audit_does_not_load (w : World) kb content label :
  existsb is_load (trace_of (run_audit w kb content label)) = false.
Proof.
  rewrite run_audit_cases. destruct (w_embed_query w content); reflexivity.
Qed.

Lemma extract_pages_does_not_load (pages : list PageObject) :
  forall n text, existsb is_load (trace_of (extract_pages pages n text)) = false.
Proof.
  induction pages as [|p pages IH]; intros n text; [reflexivity|].
  cbn [extract_pages].
  destruct (extract_text p) as [[s|]|e]; cbn [call]; [|reflexivity..].
  rewrite bind_Ok. cbn [str_iadd]. rewrite bind_ret.
  cbn [trace_of fst]. apply (IH (S n) (text ++ s)).
Qed.

Lemma extract_text_from_pdf_does_not_load (w : World) (file : UploadedFile) :
  existsb is_load (trace_of (extract_text_from_pdf w file)) = false.
Proof.
  unfold extract_text_from_pdf.
  destruct (w_PdfReader w file) as [pages|e]; cbn [call]; [|reflexivity].
  rewrite bind_Ok. cbn [trace_of fst]. apply (extract_pages_does_not_load pages 0 []).
Qed.

Lemma tabs_do_not_load (w : World) kb ui :
  existsb is_load (trace_of (tabs w kb ui)) = false.
Proof.
  unfold tabs.
  apply existsb_bind_false; [|intros _; apply existsb_bind_false; [|intros _]].
  - rewrite tab1_cases.
    destruct (button_run_text_audit ui); [|reflexivity].
    destruct (truthy (text_input ui)); [|reflexivity].
    cbv zeta. cbn [trace_of fst]. rewrite existsb_app, run_audit_does_not_load.
    destruct (result_of _) as [[result context]|e|]; [|reflexivity..].
    unfold verdict_event. destruct (contains FAIL_token result); reflexivity.
  - rewrite tab2_cases.
    destruct (uploaded_pdf ui) as [pdf|]; [|reflexivity].
    destruct (button_audit_pdf ui); [|reflexivity]. cbv zeta.
    pose proof (extract_text_from_pdf_does_not_load w pdf) as Hex.
    destruct (result_of (extract_text_from_pdf w pdf)) as [pdf_text|e|];
      cbn [trace_of fst]; [|exact Hex..].
    rewrite existsb_app, Hex. cbn [existsb is_load orb].
    rewrite existsb_app, run_audit_does_not_load.
    destruct (result_of _) as [[result context]|e|]; [|reflexivity..].
    unfold verdict_event. destruct (contains FAIL_token result); reflexivity.
  - rewrite tab3_cases.
    destruct (uploaded_img ui) as [img|]; [|reflexivity].
    destruct (button_audit_image ui); [|reflexivity]. cbv zeta.
    unfold trace_of at 1. cbn [fst].
    rewrite existsb_app. cbn [existsb is_load orb].
    rewrite existsb_app, run_audit_does_not_load.
    destruct (result_of _) as [[result context]|e|]; [|reflexivity..].
    unfold verdict_event. destruct (contains FAIL_token result); reflexivity.
Qed.

(** A run that finds a value in the cache keeps it and loads nothing. *)
Lemma app_cached (w : World) (v : option index) (ui : UI) :
  snd (app w (Some v) ui) = Some v /\
  existsb is_load (trace_of (fst (app w (Some v) ui))) = false.
Proof.
  unfold app. cbn [load_knowledge_base_cached fst snd]. split; [reflexivity|].
  apply existsb_bind_false; [reflexivity | intros _].
  apply existsb_bind_false; [reflexivity | intros _].
  rewrite bind_ret. destruct v as [kb|].
  - apply existsb_bind_false; [reflexivity | intros _].
    apply existsb_bind_false; [reflexivity | intros _].
    apply (tabs_do_not_load w kb ui).
  - reflexivity.
Qed.

Lemma serve_cached (w : World) (v : option index) (interactions : list UI) :
  List.length (serve w (Some v) interactions) = List.length interactions /\
  Forall (fun run => existsb is_load (trace_of run) = false)
         (serve w (Some v) interactions).
Proof.
  induction interactions as [|ui rest IH]; [split; [reflexivity|constructor]|].
  cbn [serve]. destruct (app_cached w v ui) as [Hc Hl].
  destruct (app w (Some v) ui) as [run c']. cbn [fst snd] in *. subst c'.
  destruct IH as [Hlen Hall].
  split; [cbn [List.length]; now rewrite Hlen | now constructor].
Qed.

(** X5.  The index is loaded once per process.  In a session that starts
    with an empty cache, the first run of the script calls
    [OllamaEmbeddings] (and with it [load_knowledge_base]); no later run
    calls [OllamaEmbeddings] or [FAISS.load_local] again, whether the first
    load gave an index or [None]. *)
Theorem X5_index_loaded_once_per_session (w : World) (ui : UI) (interactions : list UI) :
  exists first later,
    serve w None (ui :: interactions) = first :: later /\
    In (OllamaEmbeddings EMBEDDING_MODEL) (trace_of first) /\
    List.length later = List.length interactions /\
    Forall (fun run => existsb is_load (trace_of run) = false) later.
Proof.
  cbn [serve].
  assert (Hc : exists v, snd (app w None ui) = Some v /\
                         In (OllamaEmbeddings EMBEDDING_MODEL)
                            (trace_of (fst (app w None ui)))).
  { unfold app. cbn [load_knowledge_base_cached fst snd].
    rewrite !trace_of_bind. cbn [emit trace_of fst result_of snd app].
    rewrite load_knowledge_base_cases.
    destruct (w_OllamaEmbeddings w EMBEDDING_MODEL) as [u|e].
    - destruct (w_FAISS_load_local w VECTOR_DB_PATH) as [db|e];
        eexists; (split; [reflexivity|]); cbn; tauto.
    - eexists; (split; [reflexivity|]); cbn; tauto. }
  destruct Hc as (v & Hv & Hin).
  destruct (app w None ui) as [first c']. cbn [fst snd] in *. subst c'.
  exists first, (serve w (Some v) interactions).
  destruct (serve_cached w v interactions) as [Hlen Hall].
  repeat split; assumption.
Qed.

(** ** PDFs without text, and the rules shown *)

(** X6.  A PDF without extractable text is audited all the same.  When
    every page extracts to the empty string (or the file has no page), tab 2
    reports "Extracted 0 characters from PDF." and then runs the audit on
    the empty string: the empty string is embedded and the judge is asked
    about it.  Unlike tab 1, tab 2 has no guard on empty content. *)
Theorem X6_textless_pdf_is_still_audited
        (w : World) (kb : index) (ui : UI) (pdf : UploadedFile) (pages : list PageObject) :
  uploaded_pdf ui = Some pdf ->
  button_audit_pdf ui = true ->
  w_PdfReader w pdf = Returns pages ->
  Forall (fun page => extract_text page = Returns (Str [])) pages ->
  trace_of (tab2 w kb ui)
  = (PdfReader pdf :: map page_extract_text (seq 0 (List.length pages)))
      ++ st_info (lit "Extracted 0 characters from PDF.")
      :: trace_of (run_audit w kb [] (lit "PDF Content"))
      ++ match result_of (run_audit w kb [] (lit "PDF Content")) with
         | Ok (result, _) => [verdict_event result]
         | _ => []
         end /\
  In (embed_query []) (trace_of (tab2 w kb ui)) /\
  result_of (tab2 w kb ui) = after_audit (result_of (run_audit w kb [] (lit "PDF Content"))).
Proof.
  intros Hu Hb Hr Hall.
  set (texts := map (fun _ : PageObject => ([] : str)) pages).
  assert (Hmap : map extract_text pages = map (fun s => Returns (Str s)) texts).
  { unfold texts. rewrite map_map. apply map_ext_in. intros page Hin.
    rewrite Forall_forall in Hall. now apply Hall. }
  assert (Hcat : List.concat texts = []).
  { unfold texts. clear. induction pages as [|p pages IH]; [reflexivity | exact IH]. }
  assert (He : extract_text_from_pdf w pdf
               = (PdfReader pdf :: map page_extract_text (seq 0 (List.length pages)),
                  Ok [])).
  { unfold extract_text_from_pdf. rewrite Hr. cbn [call]. rewrite bind_Ok.
    rewrite (extract_pages_all_str pages texts 0 [] Hmap), Hcat. reflexivity. }
  assert (Ht : trace_of (tab2 w kb ui)
               = (PdfReader pdf :: map page_extract_text (seq 0 (List.length pages)))
                   ++ st_info (lit "Extracted 0 characters from PDF.")
                   :: trace_of (run_audit w kb [] (lit "PDF Content"))
                   ++ match result_of (run_audit w kb [] (lit "PDF Content")) with
                      | Ok (result, _) => [verdict_event result]
                      | _ => []
                      end).
  { rewrite tab2_cases, Hu, Hb, He. reflexivity. }
  split; [exact Ht|split].
  - rewrite Ht. apply in_or_app. right. right.
    destruct (run_audit_embeds_content w kb [] (lit "PDF Content")) as [rest ->].
    right. left. reflexivity.
  - rewrite tab2_cases, Hu, Hb, He. reflexivity.
Qed.

Lemma X6_textless_pdf_is_still_audited_witness :
  In (embed_query [])
     (trace_of (tab2 MoreExamples.w_scanned_pdf Examples.kb2 Examples.ui_pdf)) /\
  result_of (tab2 MoreExamples.w_scanned_pdf Examples.kb2 Examples.ui_pdf) = Ok tt.
Proof.
  destruct (X6_textless_pdf_is_still_audited
              MoreExamples.w_scanned_pdf Examples.kb2 Examples.ui_pdf Examples.a_file
              MoreExamples.scanned_pages eq_refl eq_refl eq_refl)
    as (_ & Hin & Hres).
  - repeat constructor.
  - split; [exact Hin|]. rewrite Hres. reflexivity.
Defined.

(** X7.  "View Retrieved Rules" in tab 1 shows exactly the rules the judge
    was given: after a completed audit the tab logs the verdict and then
    [st.write(context)], where [context] is the very text that stands in the
    system prompt of the judge call of that run, next to the user message
    "CONTENT TO AUDIT: " followed by the text entered. *)
Theorem X7_tab1_shows_the_rules_the_judge_saw
        (w : World) (kb : index) (ui : UI) (response context : str) :
  button_run_text_audit ui = true ->
  truthy (text_input ui) = true ->
  result_of (run_audit w kb (text_input ui) (audit_mode_label (audit_mode ui)))
  = Ok (response, context) ->
  trace_of (tab1 w kb ui)
  = trace_of (run_audit w kb (text_input ui) (audit_mode_label (audit_mode ui)))
      ++ [verdict_event response; st_write context] /\
  In (ollama_chat TEXT_MODEL
        [Message "system" (system_prompt context) [];
         Message "user" (lit "CONTENT TO AUDIT: " ++ text_input ui) []])
     (trace_of (tab1 w kb ui)) /\
  result_of (tab1 w kb ui) = Ok tt.
Proof.
  intros Hb Ht Hr.
  destruct (run_audit_Ok_inv w kb _ _ _ _ Hr) as (v & _ & _ & _ & Hin).
  rewrite tab1_cases, Hb, Ht. cbv zeta. cbn [trace_of fst result_of snd].
  rewrite Hr. cbn [after_audit]. repeat split.
  apply in_or_app. left. exact Hin.
Qed.

Lemma X7_tab1_shows_the_rules_the_judge_saw_witness :
  In (st_write Examples.rules12)
     (trace_of (tab1 Examples.w_pass Examples.kb2 MoreExamples.ui_text)).
Proof.
  destruct (X7_tab1_shows_the_rules_the_judge_saw
              Examples.w_pass Examples.kb2 MoreExamples.ui_text
              Examples.pass_reply Examples.rules12 eq_refl eq_refl eq_refl)
    as (Ht & _ & _).
  rewrite Ht. apply in_or_app. right. right. left. reflexivity.
Defined.

(** X9.  PDF extraction stops at the first page that does not extract to a
    string: that page is the last one read, the pages after it are never
    asked for their text, and the text gathered so far is dropped with the
    exception. *)
Theorem X9_extraction_stops_at_first_failure
        (w : World) (file : UploadedFile)
        (pages before : list PageObject) (page : PageObject)
        (after : list PageObject) (texts : list str) :
  w_PdfReader w file = Returns pages ->
  pages = before ++ page :: after ->
  map extract_text before = map (fun s => Returns (Str s)) texts ->
  (forall s, extract_text page <> Returns (Str s)) ->
  trace_of (extract_text_from_pdf w file)
  = PdfReader file :: map page_extract_text (seq 0 (S (List.length before))) /\
  exists e, result_of (extract_text_from_pdf w file) = Raise e.
Proof.
  intros Hr -> Hmap Hbad.
  unfold extract_text_from_pdf. rewrite Hr. cbn [call]. rewrite bind_Ok.
  rewrite (extract_pages_prefix before texts (page :: after) 0 [] Hmap).
  cbn [trace_of fst result_of snd extract_pages].
  rewrite seq_S, map_app. cbn [map Nat.add].
  destruct (extract_text page) as [[s|]|e]; cbn [call].
  - now destruct (Hbad s).
  - split; [reflexivity | now eexists].
  - split; [reflexivity | now eexists].
Qed.

Lemma X9_extraction_stops_at_first_failure_witness :
  trace_of (extract_text_from_pdf Examples.w_pdf_None Examples.a_file)
  = [PdfReader Examples.a_file; page_extract_text 0; page_extract_text 1].
Proof.
  apply (X9_extraction_stops_at_first_failure
           Examples.w_pdf_None Examples.a_file Examples.pages_with_None
           [mkPage (Returns (Str Examples.page_two))]
           (mkPage (Returns None_))
           [mkPage (Returns (Str []))]
           [Examples.page_two] eq_refl eq_refl eq_refl).
  intros s. discriminate.
Defined.

(** ** Building the index *)

Lemma bind_emit {B} (e : event) (k : unit -> M B) :
  bind (emit e) k = (e :: trace_of (k tt), result_of (k tt)).
Proof. unfold emit. now rewrite bind_Ok. Qed.







(** ** Runs on a loaded index *)

Lemma displayed_app (t1 t2 : trace) :
  displayed (t1 ++ t2) = displayed t1 ++ displayed t2.
Proof. apply filter_app. Qed.

Lemma app_with_index (w : World) (u : unit) (db : index) (c : cache_resource) (ui : UI) :
  w_OllamaEmbeddings w EMBEDDING_MODEL = Returns u ->
  w_FAISS_load_local w VECTOR_DB_PATH = Returns db ->
  c = None \/ c = Some (Some db) ->
  snd (app w c ui) = Some (Some db) /\
  result_of (fst (app w c ui)) = result_of (tabs w db ui) /\
  displayed (trace_of (fst (app w c ui)))
  = page_header ++ displayed (trace_of (tabs w db ui)).
Proof.
  intros Ho Hl Hc. unfold app.
  assert (Hload : load_knowledge_base_cached w c
                  = ((match c with
              | Some _ => []
              | None => [OllamaEmbeddings EMBEDDING_MODEL;
                         FAISS_load_local VECTOR_DB_PATH]
              end,
                      Ok (Some db)), Some (Some db))).
  { destruct Hc as [-> | ->]; cbn [load_knowledge_base_cached]; [|reflexivity].
    rewrite load_knowledge_base_cases, Ho, Hl. reflexivity. }
  rewrite Hload. cbn [fst snd]. split; [reflexivity|].
  rewrite !bind_emit. cbn [trace_of fst result_of snd].
  rewrite bind_Ok. cbn [trace_of fst result_of snd].
  rewrite !bind_emit. cbn [trace_of fst result_of snd].
  fold (tabs w db ui). split; [reflexivity|].
  change (st_title msg_title
            :: st_markdown msg_intro
            :: (match c with
              | Some _ => []
              | None => [OllamaEmbeddings EMBEDDING_MODEL;
                         FAISS_load_local VECTOR_DB_PATH]
              end)
            ++ st_success msg_database_active
            :: st_info msg_current_policy :: trace_of (tabs w db ui))
    with ([st_title msg_title; st_markdown msg_intro]
            ++ (match c with
              | Some _ => []
              | None => [OllamaEmbeddings EMBEDDING_MODEL;
                         FAISS_load_local VECTOR_DB_PATH]
              end)
            ++ [st_success msg_database_active; st_info msg_current_policy]
            ++ trace_of (tabs w db ui)).
  rewrite !displayed_app. destruct c; reflexivity.
Qed.

(** X10.  Once the index has loaded, every run of the session audits
    against that same index: each run shows the title, the introduction,
    "Policy Database Active" and the current policy, then does exactly what
    the three tabs do on the loaded index for that run's input, and ends as
    they end.  No run is halted by [st.stop()]. *)
Theorem X10_loaded_index_serves_every_run
        (w : World) (u : unit) (db : index) (interactions : list UI) :
  w_OllamaEmbeddings w EMBEDDING_MODEL = Returns u ->
  w_FAISS_load_local w VECTOR_DB_PATH = Returns db ->
  Forall2 (fun ui run =>
             result_of run = result_of (tabs w db ui) /\
             displayed (trace_of run)
             = page_header ++ displayed (trace_of (tabs w db ui)))
          interactions (serve w None interactions).
Proof.
  intros Ho Hl.
  assert (H : forall c, c = None \/ c = Some (Some db) ->
              Forall2 (fun ui run =>
                         result_of run = result_of (tabs w db ui) /\
                         displayed (trace_of run)
                         = page_header ++ displayed (trace_of (tabs w db ui)))
                      interactions (serve w c interactions)).
  { induction interactions as [|ui rest IH]; intros c Hc; [constructor|].
    cbn [serve]. destruct (app_with_index w u db c ui Ho Hl Hc) as (Hc' & Hr & Hd).
    destruct (app w c ui) as [run c']. cbn [fst snd] in *.
    constructor; [split; assumption|]. apply IH. now right. }
  apply H. now left.
Qed.

Lemma X10_loaded_index_serves_every_run_witness :
  Forall2 (fun ui run =>
             result_of run = result_of (tabs Examples.w_pass Examples.kb2 ui) /\
             displayed (trace_of run)
             = page_header ++ displayed (trace_of (tabs Examples.w_pass Examples.kb2 ui)))
          [Examples.ui_pdf; MoreExamples.ui_text]
          (serve Examples.w_pass None [Examples.ui_pdf; MoreExamples.ui_text]).
Proof.
  apply (X10_loaded_index_serves_every_run
           Examples.w_pass tt Examples.kb2 [Examples.ui_pdf; MoreExamples.ui_text]
           eq_refl eq_refl).
Defined.

(** ** The text guard *)

(** X11.  With its button pressed, tab 1 starts an audit exactly when the
    text entered is not the empty string.  The guard is Python truthiness of
    the string: a text of blanks only passes it, and the text is embedded as
    entered, with nothing stripped. *)
Theorem X11_tab1_audits_iff_text_nonempty (w : World) (kb : index) (ui : UI) :
  button_run_text_audit ui = true ->
  (existsb audit_work (trace_of (tab1 w kb ui)) = true <-> text_input ui <> []) /\
  (text_input ui <> [] ->
   In (embed_query (text_input ui)) (trace_of (tab1 w kb ui))).
Proof.
  intros Hb.
  assert (Hin : text_input ui <> [] ->
                In (embed_query (text_input ui)) (trace_of (tab1 w kb ui))).
  { intros Hne. rewrite tab1_cases, Hb.
    destruct (text_input ui) as [|c text] eqn:E; [congruence|].
    cbn [truthy]. cbv zeta. cbn [trace_of fst].
    destruct (run_audit_embeds_content w kb (c :: text)
                (audit_mode_label (audit_mode ui))) as [rest ->].
    cbn [app In]. right. left. reflexivity. }
  split; [split|exact Hin].
  - intros Hwork Hempty. rewrite (tab1_on_empty_text w kb ui Hempty), Hb in Hwork.
    discriminate Hwork.
  - intros Hne. apply existsb_exists. exists (embed_query (text_input ui)).
    split; [now apply Hin | reflexivity].
Qed.

Lemma X11_tab1_audits_iff_text_nonempty_witness :
  In (embed_query (lit "   "))
     (trace_of (tab1 Examples.w_pass Examples.kb2
                     (mkUI UserPrompt (lit "   ") true None false None false))).
Proof.
  apply (X11_tab1_audits_iff_text_nonempty
           Examples.w_pass Examples.kb2
           (mkUI UserPrompt (lit "   ") true None false None false) eq_refl).
  discriminate.
Defined.
